(** * Lab results form field: a shallow embedding of the two components

    Sources embedded here:
    - [packages/esm-patient-orders-app/src/lab-results/lab-results-form-field.component.tsx]
      (module [OrdersApp] below);
    - [unnamed/part_000], a second copy of the component (module [Part000]).

    A rendered React tree is modelled by the list of the input widgets it
    contains, in document order; a JSX child that evaluates to [false] or
    [undefined] contributes nothing.  A widget keeps the props the component
    computes ([name], [id], label, default value, type, validation state and
    children); constant props (class names, [allowEmpty], ...) are left out,
    and the current value and change handler of an input are those of the
    form controller registered under [name].  Hooks and imported helpers whose
    code is not part of the sources are fields of the class [Collaborators]. *)

From Stdlib Require Import String Ascii List Bool Lia DecimalString.
From stdpp Require Import base option list strings gmap.

Set Warnings "-register-all".

(** ** JavaScript values *)

Section JsData.
Variable JsNumber : Type.

(** [Observation.value] is typed [any]: the shapes the component can tell
    apart are kept, an object with the [uuid] property it carries, if any. *)
Inductive JsValue :=
| VUndefined
| VNull
| VString (s : string)
| VNumber (n : JsNumber)
| VObject (obj_uuid : option string) (obj_display : option string).

(** [v?.uuid] *)
Definition opt_uuid (v : JsValue) : JsValue :=
  match v with
  | VObject (Some u) _ => VString u
  | _ => VUndefined
  end.

(** *** The concept descriptor, [LabOrderConcept] *)

Record Datatype := {
  datatype_display : string;
  hl7Abbreviation : option string
}.

Record Answer := {
  answer_uuid : string;
  answer_display : string
}.

Inductive LabOrderConcept := mkConcept {
  uuid : string;
  display : option string;
  datatype : Datatype;
  hiAbsolute : option JsNumber;
  lowAbsolute : option JsNumber;
  units : option string;
  answers : option (list Answer);
  setMembers : list LabOrderConcept
}.

(** *** The prior observation *)

Record GroupMember := {
  member_concept_uuid : string;
  member_value : JsValue
}.

Record Observation := {
  obs_concept_uuid : option string;
  obs_value : JsValue;
  groupMembers : option (list GroupMember)
}.

(** [defaultValue?.groupMembers?.find((member) => member.concept.uuid === conceptUuid)] *)
Definition findGroupMember (defaultValue : option Observation)
    (conceptUuid : string) : option GroupMember :=
  match defaultValue with
  | Some obs =>
      match groupMembers obs with
      | Some members =>
          find (fun member => bool_decide (member_concept_uuid member = conceptUuid))
               members
      | None => None
      end
  | None => None
  end.

(** *** The error map, [FieldErrors] *)

Record FieldError := { message : option string }.

(** *** Rendered widgets *)

Inductive SelectChild :=
| SelectItem (text value : string)
| TextNode (s : string).

Inductive Widget :=
| EImageHandlerInput (name labelText : string)
| ETextInput (name id labelText : string)
             (invalidText : option string) (invalid : bool)
| ENumberInput (name id label : string)
               (invalidText : option string) (invalid : bool)
| ESelect (name id labelText : string) (defaultValue : JsValue)
          (type : option string)
          (invalidText : option string) (invalid : bool)
          (children : list SelectChild).
End JsData.

Arguments VUndefined {JsNumber}.
Arguments VNull {JsNumber}.
Arguments VString {JsNumber} s.
Arguments VNumber {JsNumber} n.
Arguments VObject {JsNumber} obj_uuid obj_display.
Arguments opt_uuid {JsNumber} v.
Arguments mkConcept {JsNumber}.
Arguments uuid {JsNumber} _.
Arguments display {JsNumber} _.
Arguments datatype {JsNumber} _.
Arguments hiAbsolute {JsNumber} _.
Arguments lowAbsolute {JsNumber} _.
Arguments units {JsNumber} _.
Arguments answers {JsNumber} _.
Arguments setMembers {JsNumber} _.
Arguments Build_GroupMember {JsNumber}.
Arguments member_concept_uuid {JsNumber} _.
Arguments member_value {JsNumber} _.
Arguments Build_Observation {JsNumber}.
Arguments obs_concept_uuid {JsNumber} _.
Arguments obs_value {JsNumber} _.
Arguments groupMembers {JsNumber} _.
Arguments findGroupMember {JsNumber} defaultValue conceptUuid.
Arguments EImageHandlerInput {JsNumber}.
Arguments ETextInput {JsNumber}.
Arguments ENumberInput {JsNumber}.
Arguments ESelect {JsNumber}.

(** ** Collaborators

    [isText], [isNumeric], [isCoded], [isPanel] and [isImage] are imported from
    [./lab-results.resource]; [useConfig], [useAllowedFileExtensions] and the
    translation function [t] are hooks of the framework.  [numberToString] is
    the conversion a template literal applies to a number. *)

Inductive AllowedFileExtensions :=
| ExtUndefined
| ExtNull
| ExtNotArray
| ExtArray (exts : list string).

Class Collaborators (JsNumber ConfigObject : Type) := {
  numberToString : JsNumber -> string;
  isText : LabOrderConcept JsNumber -> bool;
  isNumeric : LabOrderConcept JsNumber -> bool;
  isCoded : LabOrderConcept JsNumber -> bool;
  isPanel : LabOrderConcept JsNumber -> bool;
  isImage : LabOrderConcept JsNumber -> ConfigObject -> bool;
  useConfig : ConfigObject;
  useAllowedFileExtensions : AllowedFileExtensions;
  t : string -> string -> string
}.

(** ** Small pieces of the JavaScript runtime *)

Module Js.
(** Truthiness of a [string | undefined]. *)
Definition truthy (s : option string) : bool :=
  match s with
  | Some (String _ _) => true
  | _ => false
  end.

(** [s || ''] *)
Definition or_empty (s : option string) : string :=
  if truthy s then default "" s else "".

(** The JSX child [{xs?.map(f)}]: nothing when [xs] is undefined. *)
Definition opt_map {A} (xs : option (list A)) (f : A -> SelectChild)
    : list SelectChild :=
  match xs with
  | None => []
  | Some l => map f l
  end.

(** The JSX child [{xs?.length && xs?.map(f)}]: nothing when [xs] is
    undefined; for an empty array the value is the number [0], which React
    renders as the text "0". *)
Definition and_length {A} (xs : option (list A)) (f : A -> SelectChild)
    : list SelectChild :=
  match xs with
  | None => []
  | Some [] => [TextNode "0"]
  | Some l => map f l
  end.

(** The property names every object inherits from [Object.prototype].  A read
    [object[key]] of an object that has no entry under [key] finds the
    inherited member, a function or an object: it is truthy and has no
    [message]. *)
Definition objectPrototypeNames : list string :=
  [ "constructor"; "__proto__"; "hasOwnProperty"; "isPrototypeOf";
    "propertyIsEnumerable"; "toLocaleString"; "toString"; "valueOf";
    "__defineGetter__"; "__defineSetter__"; "__lookupGetter__";
    "__lookupSetter__" ].

Definition inherited (key : string) : bool :=
  bool_decide (key ∈ objectPrototypeNames).

(** Case-insensitive matching of a regular expression made of plain
    characters, [/pattern/i.test(s)].  Without the [u] flag a character is
    canonicalised by its upper case, and a character outside ASCII never
    canonicalises to an ASCII one. *)
Definition canonicalize (c : ascii) : ascii :=
  let n := nat_of_ascii c in
  if (97 <=? n)%nat && (n <=? 122)%nat then ascii_of_nat (n - 32) else c.

Fixpoint match_here (pattern s : string) : bool :=
  match pattern, s with
  | EmptyString, _ => true
  | String p ps, String c cs =>
      Ascii.eqb (canonicalize p) (canonicalize c) && match_here ps cs
  | String _ _, EmptyString => false
  end.

Fixpoint regex_test_i (pattern s : string) : bool :=
  match_here pattern s
  || match s with
     | EmptyString => false
     | String _ s' => regex_test_i pattern s'
     end.
End Js.

(** ** The component of the orders app *)

Module OrdersApp.
Section Component.
Context {JsNumber ConfigObject : Type} `{!Collaborators JsNumber ConfigObject}.

Definition formatLabRange (concept : LabOrderConcept JsNumber) : string :=
  let hl7 := hl7Abbreviation (datatype concept) in
  if negb (bool_decide (hl7 = Some "NM")) then ""
  else
    let displayUnit :=
      if Js.truthy (units concept) then " " +:+ default "" (units concept)
      else "" in
    match lowAbsolute concept, hiAbsolute concept with
    | Some low, Some hi =>
        " (" +:+ numberToString low +:+ " - " +:+ numberToString hi
             +:+ " " +:+ displayUnit +:+ ")"
    | None, Some hi =>
        " (<= " +:+ numberToString hi +:+ " " +:+ displayUnit +:+ ")"
    | Some low, None =>
        " (>= " +:+ numberToString low +:+ " " +:+ displayUnit +:+ ")"
    | None, None =>
        if Js.truthy (units concept) then " (" +:+ displayUnit +:+ ")"
        else ""
    end.

(** The label template of the text, number and select inputs (lines 131, 154
    and 185):
    [`${concept?.display ? concept.display + ' ' : ''}${formatLabRange(concept)}`] *)
Definition labelOf (concept : LabOrderConcept JsNumber) : string :=
  (if Js.truthy (display concept) then default "" (display concept) +:+ " "
   else "") +:+ formatLabRange concept.

Definition getSavedMemberValue (defaultValue : option (Observation JsNumber))
    (conceptUuid dataType : string) : JsValue JsNumber :=
  if bool_decide (Some conceptUuid = defaultValue ≫= obs_concept_uuid)
  then from_option obs_value VUndefined defaultValue
  else
    let found := findGroupMember defaultValue conceptUuid in
    if bool_decide (dataType = "Coded")
    then opt_uuid (from_option member_value VUndefined found)
    else from_option member_value VUndefined found.

(** [errors[concept.uuid]] is a property read of the error object: it gives
    the entry of the error map under the identifier or, for want of one, the
    member the object inherits under that name ([Js.inherited]).  So
    [invalidText], [errors[concept.uuid]?.message], is the message of the
    entry, and [invalid], [!!errors[concept.uuid]], holds when there is an
    entry or an inherited member. *)
Definition ConceptField (concept : LabOrderConcept JsNumber)
    (defaultValue : option (Observation JsNumber))
    (errors : gmap string FieldError) : list (Widget JsNumber) :=
  if isImage concept useConfig then
    [EImageHandlerInput (uuid concept) (Js.or_empty (display concept))]
  else if isText concept then
    [ETextInput (uuid concept) (uuid concept) (labelOf concept)
                (errors !! uuid concept ≫= message)
                (bool_decide (is_Some (errors !! uuid concept))
               || Js.inherited (uuid concept))]
  else if isNumeric concept then
    [ENumberInput (uuid concept) (uuid concept) (labelOf concept)
                  (errors !! uuid concept ≫= message)
                  (bool_decide (is_Some (errors !! uuid concept))
               || Js.inherited (uuid concept))]
  else if isCoded concept then
    [ESelect (uuid concept) ("select-" +:+ uuid concept) (labelOf concept)
             (getSavedMemberValue defaultValue (uuid concept)
                (datatype_display (datatype concept)))
             None
             (errors !! uuid concept ≫= message)
             (bool_decide (is_Some (errors !! uuid concept))
               || Js.inherited (uuid concept))
             (SelectItem (t "chooseAnOption" "Choose an option") ""
              :: Js.and_length (answers concept)
                   (fun answer => SelectItem (answer_display answer) (answer_uuid answer)))]
  else [].

Definition ResultFormField (concept : LabOrderConcept JsNumber)
    (defaultValue : option (Observation JsNumber))
    (errors : gmap string FieldError) : list (Widget JsNumber) :=
  ConceptField concept defaultValue errors
  ++ (if isPanel concept
      then flat_map (fun member => ConceptField member defaultValue errors)
                    (setMembers concept)
      else []).
End Component.
End OrdersApp.

(** ** The second copy of the component, [unnamed/part_000] *)

Module Part000.
Section Component.
Context {JsNumber ConfigObject : Type} `{!Collaborators JsNumber ConfigObject}.

Definition formatLabRange (concept : LabOrderConcept JsNumber) : string :=
  let hl7 := hl7Abbreviation (datatype concept) in
  if negb (bool_decide (hl7 = Some "NM")) then ""
  else
    let displayUnit :=
      if Js.truthy (units concept) then " " +:+ default "" (units concept)
      else "" in
    match lowAbsolute concept, hiAbsolute concept with
    | Some low, Some hi =>
        " (" +:+ numberToString low +:+ " - " +:+ numberToString hi
             +:+ " " +:+ displayUnit +:+ ")"
    | None, Some hi =>
        " (<= " +:+ numberToString hi +:+ " " +:+ displayUnit +:+ ")"
    | Some low, None =>
        " (>= " +:+ numberToString low +:+ " " +:+ displayUnit +:+ ")"
    | None, None =>
        if Js.truthy (units concept) then " (" +:+ displayUnit +:+ ")"
        else ""
    end.

(** The label template, the same at lines 70, 91, 112, 155, 175 and 195. *)
Definition labelOf (concept : LabOrderConcept JsNumber) : string :=
  (if Js.truthy (display concept) then default "" (display concept) +:+ " "
   else "") +:+ formatLabRange concept.

Definition getSavedMemberValue (defaultValue : option (Observation JsNumber))
    (conceptUuid dataType : string) : JsValue JsNumber :=
  let found := findGroupMember defaultValue conceptUuid in
  if bool_decide (dataType = "Coded")
  then opt_uuid (from_option member_value VUndefined found)
  else from_option member_value VUndefined found.

(** [{cond && <X />}] *)
Definition when (cond : bool) (w : Widget JsNumber) : list (Widget JsNumber) :=
  if cond then [w] else [].

(** The fragment rendered for one member of a panel. *)
Definition memberFragment (defaultValue : option (Observation JsNumber))
    (errors : gmap string FieldError)
    (member : LabOrderConcept JsNumber) : list (Widget JsNumber) :=
  when (isText member)
    (ETextInput (uuid member) ("text-" +:+ uuid member) (labelOf member)
                (errors !! uuid member ≫= message)
                (bool_decide (is_Some (errors !! uuid member))
               || Js.inherited (uuid member)))
  ++ when (isNumeric member)
    (ENumberInput (uuid member) ("number-" +:+ uuid member) (labelOf member)
                  (errors !! uuid member ≫= message)
                  (bool_decide (is_Some (errors !! uuid member))
               || Js.inherited (uuid member)))
  ++ when (isCoded member)
    (ESelect (uuid member) ("select-" +:+ uuid member) (labelOf member)
             (getSavedMemberValue defaultValue (uuid member)
                (datatype_display (datatype member)))
             (Some "text")
             (errors !! uuid member ≫= message)
             (bool_decide (is_Some (errors !! uuid member))
               || Js.inherited (uuid member))
             (SelectItem (t "chooseAnOption" "Choose an option") ""
              :: Js.opt_map (answers member)
                   (fun answer => SelectItem (answer_display answer) (answer_uuid answer))))
  ++ when (isImage member useConfig)
    (EImageHandlerInput (uuid member) (Js.or_empty (display member))).

Definition ResultFormField (concept : LabOrderConcept JsNumber)
    (defaultValue : option (Observation JsNumber))
    (errors : gmap string FieldError) : list (Widget JsNumber) :=
  when (isText concept)
    (ETextInput (uuid concept) (uuid concept) (labelOf concept)
                (errors !! uuid concept ≫= message)
                (bool_decide (is_Some (errors !! uuid concept))
               || Js.inherited (uuid concept)))
  ++ when (isNumeric concept)
    (ENumberInput (uuid concept) (uuid concept) (labelOf concept)
                  (errors !! uuid concept ≫= message)
                  (bool_decide (is_Some (errors !! uuid concept))
               || Js.inherited (uuid concept)))
  ++ when (isCoded concept)
    (ESelect (uuid concept) ("select-" +:+ uuid concept) (labelOf concept)
             (opt_uuid (from_option obs_value VUndefined defaultValue))
             None
             (errors !! uuid concept ≫= message)
             (bool_decide (is_Some (errors !! uuid concept))
               || Js.inherited (uuid concept))
             (SelectItem (t "chooseAnOption" "Choose an option") ""
              :: Js.and_length (answers concept)
                   (fun answer => SelectItem (answer_display answer) (answer_uuid answer))))
  ++ when (isImage concept useConfig)
    (EImageHandlerInput (uuid concept) (Js.or_empty (display concept)))
  ++ (if isPanel concept
      then flat_map (memberFragment defaultValue errors) (setMembers concept)
      else []).
End Component.
End Part000.

(** ** The image capture adapter, [ImageHandlerInput]

    The adapter is the same text in both files (lines 209-275 of the orders
    app component, lines 236-302 of [part_000]).  Its handlers run in a state
    monad over the part of the application they act on. *)

Record UploadedFile := {
  base64Content : string;
  fileName : string;
  fileDescription : option string
}.

Record SnackbarOptions := {
  title : string;
  kind : string;
  isLowContrast : bool
}.

Record CapturePhotoProps := {
  allowedExtensions : list string;
  collectDescription : bool;
  multipleFiles : bool
}.

(** The state the handlers act on.  [formValues] holds the values of the
    image fields, the only ones the adapter reads and writes. *)
Record World := {
  formValues : gmap string UploadedFile;
  snackbars : list SnackbarOptions;
  modals : gmap nat (string * CapturePhotoProps);
  nextModal : nat
}.

Definition M (A : Type) : Type := World -> A * World.

#[export] Instance M_ret : MRet M := fun A x w => (x, w).
#[export] Instance M_bind : MBind M :=
  fun A B f m w => let '(x, w') := m w in f x w'.

(** Modelled from the spec: the modal collaborator, which "accepts a workflow
    name plus a payload" and "returns a close handle".  The handle is the key
    under which the open workflow is registered; the two callbacks of the
    payload are [ImageHandlerInput.saveFile] and
    [ImageHandlerInput.closeModal] applied to that handle. *)
Definition showModal (name : string) (props : CapturePhotoProps) : M nat :=
  fun w =>
    (nextModal w,
     {| formValues := formValues w;
        snackbars := snackbars w;
        modals := <[nextModal w := (name, props)]> (modals w);
        nextModal := S (nextModal w) |}).

Definition closeHandle (handle : nat) : M unit :=
  fun w =>
    (tt,
     {| formValues := formValues w;
        snackbars := snackbars w;
        modals := delete handle (modals w);
        nextModal := nextModal w |}).

(** Modelled from the spec: the notification collaborator, which "accepts
    {title, severity/kind, low-contrast flag} and displays a transient
    toast". *)
Definition showSnackbar (options : SnackbarOptions) : M unit :=
  fun w =>
    (tt,
     {| formValues := formValues w;
        snackbars := snackbars w ++ [options];
        modals := modals w;
        nextModal := nextModal w |}).

(** Modelled from the spec: the value-setter of the form value map, "a mapping
    from concept identifier (string) to the field's current value ... or
    absent".  Setting [undefined] leaves the field without a value. *)
Definition setFormValue (name : string) (v : option UploadedFile) : M unit :=
  fun w =>
    (tt,
     {| formValues :=
          match v with
          | Some file => <[name := file]> (formValues w)
          | None => delete name (formValues w)
          end;
        snackbars := snackbars w;
        modals := modals w;
        nextModal := nextModal w |}).

(** Modelled from the spec: the entry of the form value map for a field, "the
    field's current value ... or absent".  A controller passes an entry that
    is present on as [field.value]; what a field shows while the form has no
    value for it is the form library's choice (it may fall back on a default
    value) and is not modelled. *)
Definition fieldValue (name : string) (w : World) : option UploadedFile :=
  formValues w !! name.

Record Thumbnail := { src : string; alt : string }.

Record ImageView := {
  helperText : string;
  thumbnailGrid : list Thumbnail
}.

Module ImageHandlerInput.
Section Adapter.
Context {JsNumber ConfigObject : Type} `{!Collaborators JsNumber ConfigObject}.
Variable setValue : option UploadedFile -> M unit.

Definition saveFile (close : nat) (file : option UploadedFile) : M unit :=
  (match file with
   | Some _ => setValue file
   | None => mret tt
   end) ;;
  closeHandle close.

Definition closeModal (close : nat) : M unit := closeHandle close.

Definition showImageCaptureModal : M unit :=
  close ← showModal "capture-photo-modal"
    {| allowedExtensions :=
         match useAllowedFileExtensions with
         | ExtArray exts =>
             List.filter (fun ext => negb (Js.regex_test_i "pdf" ext)) exts
         | _ => []
         end;
       collectDescription := true;
       multipleFiles := true |};
  mret tt.

Definition handleRemoveImage : M unit :=
  setValue None ;;
  showSnackbar
    {| title := t "imageRemoved" "Image removed";
       kind := "success";
       isLowContrast := true |}.

Definition render (value : option UploadedFile) (labelText : string)
    : ImageView :=
  {| helperText := labelText;
     thumbnailGrid :=
       match value with
       | Some v =>
           [{| src := base64Content v;
               alt := default (fileName v) (fileDescription v) |}]
       | None => []
       end |}.
End Adapter.
End ImageHandlerInput.

(** ** Observations on rendered widgets *)

Inductive WidgetKind := KImage | KText | KNumber | KSelect.

Section Views.
Context {JsNumber : Type}.

Definition widget_kind (w : Widget JsNumber) : WidgetKind :=
  match w with
  | EImageHandlerInput _ _ => KImage
  | ETextInput _ _ _ _ _ => KText
  | ENumberInput _ _ _ _ _ => KNumber
  | ESelect _ _ _ _ _ _ _ _ => KSelect
  end.

Definition widget_name (w : Widget JsNumber) : string :=
  match w with
  | EImageHandlerInput name _ => name
  | ETextInput name _ _ _ _ => name
  | ENumberInput name _ _ _ _ => name
  | ESelect name _ _ _ _ _ _ _ => name
  end.

Definition widget_label (w : Widget JsNumber) : string :=
  match w with
  | EImageHandlerInput _ labelText => labelText
  | ETextInput _ _ labelText _ _ => labelText
  | ENumberInput _ _ label _ _ => label
  | ESelect _ _ labelText _ _ _ _ _ => labelText
  end.

(** The [SelectItem]s of a select, as (text, value) pairs. *)
Definition widget_options (w : Widget JsNumber) : list (string * string) :=
  match w with
  | ESelect _ _ _ _ _ _ _ children =>
      omap (fun child =>
              match child with
              | SelectItem text value => Some (text, value)
              | TextNode _ => None
              end) children
  | _ => []
  end.

Definition widget_defaultValue (w : Widget JsNumber) : option (JsValue JsNumber) :=
  match w with
  | ESelect _ _ _ defaultValue _ _ _ _ => Some defaultValue
  | _ => None
  end.

(** What two renderings are compared on: the kind of input, the field it is
    bound to, its label, its options and its pre-filled default value. *)
Definition widget_view (w : Widget JsNumber)
    : WidgetKind * string * string * list (string * string)
      * option (JsValue JsNumber) :=
  (widget_kind w, widget_name w, widget_label w, widget_options w,
   widget_defaultValue w).
End Views.

(** ** The specification's wording, for comparison with the code *)

Module Spec.
Section Wording.
Context {JsNumber ConfigObject : Type} `{!Collaborators JsNumber ConfigObject}.

(** "Classification order is a priority chain, evaluated top to bottom,
    first match wins: image -> free text -> numeric -> panel (recurse) ->
    coded".  The leaves are those of the orders app component, whose
    [ConceptField] picks the image, text or numeric input in that order; a
    concept that is none of the three and is a panel yields its members'
    widgets only; any other concept yields its select, if it is coded. *)
Definition priorityChain (concept : LabOrderConcept JsNumber)
    (defaultValue : option (Observation JsNumber))
    (errors : gmap string FieldError) : list (Widget JsNumber) :=
  if isImage concept useConfig || isText concept || isNumeric concept
  then OrdersApp.ConceptField concept defaultValue errors
  else if isPanel concept
  then flat_map (fun member => OrdersApp.ConceptField member defaultValue errors)
                (setMembers concept)
  else OrdersApp.ConceptField concept defaultValue errors.

(** The chain without the panel step: the rules a single concept is matched
    against, in order. *)
Definition leafChain
    : list ((LabOrderConcept JsNumber -> bool) * WidgetKind) :=
  [ (fun concept => isImage concept useConfig, KImage);
    (isText, KText);
    (isNumeric, KNumber);
    (isCoded, KSelect) ].

(** "Unit is rendered with a leading space when present", and the unit
    segment "becomes empty" when it is absent. *)
Definition unitSegment (units : option string) : string :=
  match units with
  | Some (String c rest) => " " +:+ String c rest
  | _ => ""
  end.

(** "the rendered label is the concept's display name (empty string if
    absent) concatenated with a human-readable reference-range suffix" *)
Definition label (concept : LabOrderConcept JsNumber) : string :=
  default "" (display concept) +:+ OrdersApp.formatLabRange concept.

(** What the components put in a label: the display name alone for an image
    input; for the other inputs the display name followed by a space when
    it is non-empty, then the reference-range suffix. *)
Definition composedLabel (kind : WidgetKind)
    (concept : LabOrderConcept JsNumber) : string :=
  match kind with
  | KImage => Js.or_empty (display concept)
  | _ =>
      (if Js.truthy (display concept)
       then default "" (display concept) +:+ " " else "")
      +:+ OrdersApp.formatLabRange concept
  end.

(** The members a rendering visits: those of a panel, none otherwise. *)
Definition renderedMembers (concept : LabOrderConcept JsNumber)
    : list (LabOrderConcept JsNumber) :=
  if isPanel concept then setMembers concept else [].

(** The group-member search of the pre-fill resolution: "search the
    observation's group-members list for a child whose concept identifier
    matches, and use that child's value identifier (for coded types) or raw
    value (otherwise). No match yields an empty/unset default." *)
Inductive groupMemberLookup (obs : Observation JsNumber)
    (conceptUuid dataType : string) : JsValue JsNumber -> Prop :=
| lookup_found before child after :
    groupMembers obs = Some (before ++ child :: after) ->
    Forall (fun m => member_concept_uuid m <> conceptUuid) before ->
    member_concept_uuid child = conceptUuid ->
    groupMemberLookup obs conceptUuid dataType
      (if bool_decide (dataType = "Coded")
       then opt_uuid (member_value child) else member_value child)
| lookup_no_match members :
    groupMembers obs = Some members ->
    Forall (fun m => member_concept_uuid m <> conceptUuid) members ->
    groupMemberLookup obs conceptUuid dataType VUndefined
| lookup_no_members :
    groupMembers obs = None ->
    groupMemberLookup obs conceptUuid dataType VUndefined.

(** At most one of the four leaf predicates holds of the concept. *)
Definition exclusive (concept : LabOrderConcept JsNumber) : Prop :=
  (Nat.b2n (isImage concept useConfig) + Nat.b2n (isText concept)
   + Nat.b2n (isNumeric concept) + Nat.b2n (isCoded concept) <= 1)%nat.

(** At least one of the four leaf predicates holds of the concept. *)
Definition classified (concept : LabOrderConcept JsNumber) : bool :=
  isImage concept useConfig || isText concept || isNumeric concept
  || isCoded concept.

(** An extension "containing the substring pdf (matched
    case-insensitively)". *)
Definition containsPdf (ext : string) : Prop :=
  exists (pre post : string) (p d f : ascii),
    ext = pre +:+ String p (String d (String f post))
    /\ (p = "p"%char \/ p = "P"%char)
    /\ (d = "d"%char \/ d = "D"%char)
    /\ (f = "f"%char \/ f = "F"%char).
End Wording.
End Spec.

(** ** Further observations on rendered widgets *)

Section MoreViews.
Context {JsNumber : Type}.

Definition widget_children (w : Widget JsNumber) : list SelectChild :=
  match w with
  | ESelect _ _ _ _ _ _ _ children => children
  | _ => []
  end.

(** The validation props [invalidText] and [invalid]; the image input has
    none. *)
Definition widget_validation (w : Widget JsNumber)
    : option (option string * bool) :=
  match w with
  | EImageHandlerInput _ _ => None
  | ETextInput _ _ _ invalidText invalid => Some (invalidText, invalid)
  | ENumberInput _ _ _ invalidText invalid => Some (invalidText, invalid)
  | ESelect _ _ _ _ _ invalidText invalid _ => Some (invalidText, invalid)
  end.

(** The widget with the pre-filled default value of a select taken out. *)
Definition clear_defaultValue (w : Widget JsNumber) : Widget JsNumber :=
  match w with
  | ESelect name id labelText _ type invalidText invalid children =>
      ESelect name id labelText VUndefined type invalidText invalid children
  | _ => w
  end.

(** Kind, bound field, label, validation state and options of a widget. *)
Definition widget_shape (w : Widget JsNumber)
    : WidgetKind * string * string * option (option string * bool)
      * list (string * string) :=
  (widget_kind w, widget_name w, widget_label w, widget_validation w,
   widget_options w).
End MoreViews.

Section Expected.
Context {JsNumber ConfigObject : Type} `{!Collaborators JsNumber ConfigObject}.

(** The placeholder option followed by one option per answer, in the order
    of the answers; no answers when the list is absent. *)
Definition answerOptions (concept : LabOrderConcept JsNumber)
    : list (string * string) :=
  (t "chooseAnOption" "Choose an option", "")
  :: map (fun answer => (answer_display answer, answer_uuid answer))
         (default [] (answers concept)).

(** The concepts a rendering visits: the concept and the rendered members. *)
Definition renderedConcepts (concept : LabOrderConcept JsNumber)
    : list (LabOrderConcept JsNumber) :=
  concept :: Spec.renderedMembers concept.
End Expected.

(** *** When the two files pre-fill alike *)

Section Prefill.
Context {JsNumber ConfigObject : Type} `{!Collaborators JsNumber ConfigObject}.

(** The widgets [part_000] renders for the concept itself (lines 60-140 of
    its fragment), which come before those of the members. *)
Definition ownFragment (concept : LabOrderConcept JsNumber)
    (defaultValue : option (Observation JsNumber))
    (errors : gmap string FieldError) : list (Widget JsNumber) :=
  Part000.when (isText concept)
    (ETextInput (uuid concept) (uuid concept) (Part000.labelOf concept)
                (errors !! uuid concept ≫= message)
                (bool_decide (is_Some (errors !! uuid concept))
                 || Js.inherited (uuid concept)))
  ++ Part000.when (isNumeric concept)
    (ENumberInput (uuid concept) (uuid concept) (Part000.labelOf concept)
                  (errors !! uuid concept ≫= message)
                  (bool_decide (is_Some (errors !! uuid concept))
                   || Js.inherited (uuid concept)))
  ++ Part000.when (isCoded concept)
    (ESelect (uuid concept) ("select-" +:+ uuid concept)
             (Part000.labelOf concept)
             (opt_uuid (from_option obs_value VUndefined defaultValue))
             None
             (errors !! uuid concept ≫= message)
             (bool_decide (is_Some (errors !! uuid concept))
              || Js.inherited (uuid concept))
             (SelectItem (t "chooseAnOption" "Choose an option") ""
              :: Js.and_length (answers concept)
                   (fun answer =>
                      SelectItem (answer_display answer) (answer_uuid answer))))
  ++ Part000.when (isImage concept useConfig)
    (EImageHandlerInput (uuid concept) (Js.or_empty (display concept))).

(** The select of the concept itself gets the same default in both files:
    there is no prior observation; or the observation is the concept's own
    and its value is undefined; or it is another concept's and the
    group-member search for the concept resolves to the identifier of the
    observation's value (both undefined, for one). *)
Definition ownPrefillAgrees (concept : LabOrderConcept JsNumber)
    (defaultValue : option (Observation JsNumber)) : Prop :=
  match defaultValue with
  | None => True
  | Some obs =>
      if bool_decide (obs_concept_uuid obs = Some (uuid concept))
      then obs_value obs = VUndefined
      else Spec.groupMemberLookup obs (uuid concept)
             (datatype_display (datatype concept)) (opt_uuid (obs_value obs))
  end.

(** The select of a member gets the same default in both files: there is no
    prior observation, or the observation is not the member's own, or it is
    and the group-member search for the member resolves to the observation's
    value. *)
Definition memberPrefillAgrees (member : LabOrderConcept JsNumber)
    (defaultValue : option (Observation JsNumber)) : Prop :=
  match defaultValue with
  | None => True
  | Some obs =>
      obs_concept_uuid obs = Some (uuid member) ->
      Spec.groupMemberLookup obs (uuid member)
        (datatype_display (datatype member)) (obs_value obs)
  end.
End Prefill.

(** ** A concrete runtime for examples: decimal numbers *)

Definition decimalToString (d : Decimal.decimal) : string :=
  match d with
  | Decimal.Decimal i Decimal.Nil => NilZero.string_of_int i
  | Decimal.Decimal i f =>
      NilZero.string_of_int i +:+ "." +:+ NilEmpty.string_of_uint f
  | Decimal.DecimalExp i _ _ => NilZero.string_of_int i
  end.


(** A deployment for the concrete inputs: the classification reads the
    datatype's display name and the member list, the configuration lists the
    concepts that capture images, and translations fall back to the default
    text. *)
Definition sampleCollaborators : Collaborators Decimal.decimal (list string) :=
  {| numberToString := decimalToString;
     isText := fun concept =>
       bool_decide (datatype_display (datatype concept) = "Text");
     isNumeric := fun concept =>
       bool_decide (datatype_display (datatype concept) = "Numeric");
     isCoded := fun concept =>
       bool_decide (datatype_display (datatype concept) = "Coded");
     isPanel := fun concept => negb (bool_decide (setMembers concept = []));
     isImage := fun concept config => bool_decide (uuid concept ∈ config);
     useConfig := ["xray-uuid"];
     useAllowedFileExtensions := ExtArray ["jpg"; "PDF"; "png"];
     t := fun _ defaultText => defaultText |}.

(** The same deployment when the allowed extensions are not available. *)
Definition sampleWithoutExtensions : Collaborators Decimal.decimal (list string) :=
  {| numberToString := decimalToString;
     isText := isText (Collaborators := sampleCollaborators);
     isNumeric := isNumeric (Collaborators := sampleCollaborators);
     isCoded := isCoded (Collaborators := sampleCollaborators);
     isPanel := isPanel (Collaborators := sampleCollaborators);
     isImage := isImage (Collaborators := sampleCollaborators);
     useConfig := ["xray-uuid"];
     useAllowedFileExtensions := ExtUndefined;
     t := fun _ defaultText => defaultText |}.

Module Sample.
Import Decimal.

Definition n3_5 : decimal := Decimal (Pos (D3 Nil)) (D5 Nil).
Definition n10 : decimal := Decimal (Pos (D1 (D0 Nil))) Nil.
Definition n200 : decimal := Decimal (Pos (D2 (D0 (D0 Nil)))) Nil.

Definition concept (uuid : string) (display : option string)
    (datatype hl7 : string) : LabOrderConcept decimal :=
  mkConcept uuid display
    {| datatype_display := datatype; hl7Abbreviation := Some hl7 |}
    None None None None [].

(** Numeric, 3.5 - 10 mg/dL. *)
Definition creatinine : LabOrderConcept decimal :=
  mkConcept "creat-uuid" (Some "Creatinine")
    {| datatype_display := "Numeric"; hl7Abbreviation := Some "NM" |}
    (Some n10) (Some n3_5) (Some "mg/dL") None [].

(** Numeric, at most 200, no unit. *)
Definition cholesterol : LabOrderConcept decimal :=
  mkConcept "chol-uuid" (Some "Cholesterol")
    {| datatype_display := "Numeric"; hl7Abbreviation := Some "NM" |}
    (Some n200) None None None [].

(** Numeric, at least 3.5, in g/dL. *)
Definition albumin : LabOrderConcept decimal :=
  mkConcept "alb-uuid" (Some "Albumin")
    {| datatype_display := "Numeric"; hl7Abbreviation := Some "NM" |}
    None (Some n3_5) (Some "g/dL") None [].

(** Numeric, no limits, in cells/uL. *)
Definition cd4 : LabOrderConcept decimal :=
  mkConcept "cd4-uuid" (Some "CD4 count")
    {| datatype_display := "Numeric"; hl7Abbreviation := Some "NM" |}
    None None (Some "cells/uL") None [].

Definition culture : LabOrderConcept decimal :=
  concept "culture-uuid" (Some "Culture result") "Text" "ST".

Definition xray : LabOrderConcept decimal :=
  concept "xray-uuid" (Some "Chest X-ray") "Complex" "ED".

(** A date matches none of the classification predicates. *)
Definition collectionDate : LabOrderConcept decimal :=
  concept "date-uuid" (Some "Collection date") "Date" "DT".

Definition hivTest : LabOrderConcept decimal :=
  mkConcept "hiv-uuid" (Some "HIV rapid test")
    {| datatype_display := "Coded"; hl7Abbreviation := Some "CWE" |}
    None None None
    (Some [ {| answer_uuid := "pos-uuid"; answer_display := "Positive" |};
            {| answer_uuid := "neg-uuid"; answer_display := "Negative" |} ])
    [].

(** A coded concept that also has members. *)
Definition codedPanel : LabOrderConcept decimal :=
  mkConcept "urinalysis-uuid" (Some "Urinalysis")
    {| datatype_display := "Coded"; hl7Abbreviation := Some "CWE" |}
    None None None None [creatinine].

Definition datedPanel : LabOrderConcept decimal :=
  mkConcept "dated-uuid" (Some "Sample")
    {| datatype_display := "N/A"; hl7Abbreviation := Some "ZZ" |}
    None None None None [collectionDate].

Definition renalPanel : LabOrderConcept decimal :=
  mkConcept "renal-uuid" (Some "Renal panel")
    {| datatype_display := "N/A"; hl7Abbreviation := Some "ZZ" |}
    None None None None [creatinine; hivTest; collectionDate; albumin].

(** A previously recorded positive HIV test. *)
Definition hivObs : Observation decimal :=
  {| obs_concept_uuid := Some "hiv-uuid";
     obs_value := VObject (Some "pos-uuid") (Some "Positive");
     groupMembers := None |}.

(** A previously recorded renal panel. *)
Definition renalObs : Observation decimal :=
  {| obs_concept_uuid := Some "renal-uuid";
     obs_value := VNull;
     groupMembers :=
       Some [ {| member_concept_uuid := "creat-uuid";
                 member_value := VNumber n3_5 |};
              {| member_concept_uuid := "hiv-uuid";
                 member_value := VObject (Some "neg-uuid") (Some "Negative") |} ] |}.

(** A panel with the HIV test as its member, recorded before as [hivObs]. *)
Definition screeningPanel : LabOrderConcept decimal :=
  mkConcept "screening-uuid" (Some "Screening")
    {| datatype_display := "N/A"; hl7Abbreviation := Some "ZZ" |}
    None None None None [hivTest].

(** A panel whose only member is itself a panel. *)
Definition nestedPanel : LabOrderConcept decimal :=
  mkConcept "profile-uuid" (Some "Profile")
    {| datatype_display := "N/A"; hl7Abbreviation := Some "ZZ" |}
    None None None None [renalPanel].

Definition noErrors : gmap string FieldError := ∅.

Definition photo : UploadedFile :=
  {| base64Content := "data:image/png;base64,AAAA";
     fileName := "film.png";
     fileDescription := Some "Chest film" |}.

Definition emptyWorld : World :=
  {| formValues := ∅; snackbars := []; modals := ∅; nextModal := 0 |}.

Definition populatedWorld : World :=
  {| formValues := {[ "xray-uuid" := photo ]};
     snackbars := []; modals := ∅; nextModal := 0 |}.
End Sample.

(** More inputs of the same deployment. *)
Module Cases.
Import Decimal.

(** A free-text concept that the configuration designates for images. *)
Definition describedXray : LabOrderConcept decimal :=
  Sample.concept "xray-uuid" (Some "Chest X-ray") "Text" "ST".

(** A coded concept whose answer list is present and empty. *)
Definition unansweredTest : LabOrderConcept decimal :=
  mkConcept "smear-uuid" (Some "Smear")
    {| datatype_display := "Coded"; hl7Abbreviation := Some "CWE" |}
    None None None (Some []) [].

(** Cholesterol with an empty unit and another name. *)
Definition cholesterolBlankUnit : LabOrderConcept decimal :=
  mkConcept "chol2-uuid" (Some "Total cholesterol")
    {| datatype_display := "Numeric"; hl7Abbreviation := Some "NM" |}
    (Some Sample.n200) None (Some "") None [].

(** A renal panel recorded with two results for the HIV test. *)
Definition repeatedObs : Observation decimal :=
  {| obs_concept_uuid := Some "renal-uuid";
     obs_value := VNull;
     groupMembers :=
       Some [ {| member_concept_uuid := "creat-uuid";
                 member_value := VNumber Sample.n3_5 |};
              {| member_concept_uuid := "hiv-uuid";
                 member_value := VObject (Some "neg-uuid") (Some "Negative") |};
              {| member_concept_uuid := "hiv-uuid";
                 member_value := VObject (Some "pos-uuid") (Some "Positive") |} ] |}.

(** The positive HIV test filed under another concept, with group members. *)
Definition misfiledObs : Observation decimal :=
  {| obs_concept_uuid := Some "renal-uuid";
     obs_value := VObject (Some "pos-uuid") (Some "Positive");
     groupMembers :=
       Some [ {| member_concept_uuid := "hiv-uuid";
                 member_value := VObject (Some "neg-uuid") (Some "Negative") |} ] |}.

(** A free-text concept whose identifier is the name of a member every
    object inherits. *)
Definition constructorConcept : LabOrderConcept decimal :=
  Sample.concept "constructor" (Some "Odd") "Text" "ST".

(** A creatinine result recorded on its own. *)
Definition creatinineObs : Observation decimal :=
  {| obs_concept_uuid := Some "creat-uuid";
     obs_value := VNumber Sample.n3_5;
     groupMembers := None |}.

(** An observation of another concept, without value and without members. *)
Definition unrelatedObs : Observation decimal :=
  {| obs_concept_uuid := Some "sodium-uuid";
     obs_value := VNull;
     groupMembers := None |}.

Definition creatinineRequired : gmap string FieldError :=
  {[ "creat-uuid" := {| message := Some "Required" |} ]}.

Definition unrelatedError : gmap string FieldError :=
  {[ "sodium-uuid" := {| message := Some "Required" |} ]}.
End Cases.

(** * Properties *)

Section Claims.
Context {JsNumber ConfigObject : Type} `{!Collaborators JsNumber ConfigObject}.
Implicit Types (concept member : LabOrderConcept JsNumber).
Implicit Types (defaultValue : option (Observation JsNumber)).
Implicit Types (errors : gmap string FieldError).

(** The two files carry the same [formatLabRange]. *)
Lemma formatLabRange_same concept :
  Part000.formatLabRange concept = OrdersApp.formatLabRange concept.
Proof. reflexivity. Qed.

Lemma labelOf_same concept :
  Part000.labelOf concept = OrdersApp.labelOf concept.
Proof. reflexivity. Qed.

Lemma unitSegment_displayUnit (u : option string) :
  (if Js.truthy u then " " +:+ default "" u else "") = Spec.unitSegment u.
Proof. destruct u as [[|c rest]|]; reflexivity. Qed.

(** *** The widget of one concept *)

Lemma ConceptField_kinds concept defaultValue errors :
  map widget_kind (OrdersApp.ConceptField concept defaultValue errors)
  = option_list (snd <$> List.find (fun rule => fst rule concept) Spec.leafChain).
Proof.
  unfold OrdersApp.ConceptField. cbn [Spec.leafChain List.find fst snd].
  destruct (isImage concept useConfig); [reflexivity|].
  destruct (isText concept); [reflexivity|].
  destruct (isNumeric concept); [reflexivity|].
  destruct (isCoded concept); reflexivity.
Qed.

Lemma ConceptField_length concept defaultValue errors :
  length (OrdersApp.ConceptField concept defaultValue errors)
  = (if Spec.classified concept then 1 else 0)%nat.
Proof.
  unfold OrdersApp.ConceptField, Spec.classified.
  destruct (isImage concept useConfig), (isText concept),
    (isNumeric concept), (isCoded concept); reflexivity.
Qed.

Lemma ConceptField_names concept defaultValue errors :
  Forall (fun w => widget_name w = uuid concept)
         (OrdersApp.ConceptField concept defaultValue errors).
Proof.
  unfold OrdersApp.ConceptField.
  destruct (isImage concept useConfig), (isText concept),
    (isNumeric concept), (isCoded concept); repeat constructor.
Qed.

(** C1 (as amended).  A concept alone yields at most one widget, the one of
    the first rule of the chain image, free text, numeric, coded that it
    matches, bound to the concept's identifier, and nothing when it matches
    none.  Being a panel is not a step of that chain: the resolver renders the
    concept's own widget first and, when the concept is a panel, the widgets
    of its members after it. *)
Theorem resolver_priority_chain concept defaultValue errors :
  map widget_kind (OrdersApp.ConceptField concept defaultValue errors)
  = option_list (snd <$> List.find (fun rule => fst rule concept) Spec.leafChain)
  /\ length (OrdersApp.ConceptField concept defaultValue errors)
     = (if Spec.classified concept then 1 else 0)%nat
  /\ Forall (fun w => widget_name w = uuid concept)
            (OrdersApp.ConceptField concept defaultValue errors)
  /\ OrdersApp.ResultFormField concept defaultValue errors
     = OrdersApp.ConceptField concept defaultValue errors
       ++ (if isPanel concept
           then flat_map (fun member =>
                            OrdersApp.ConceptField member defaultValue errors)
                         (setMembers concept)
           else []).
Proof.
  split; [apply ConceptField_kinds|].
  split; [apply ConceptField_length|].
  split; [apply ConceptField_names|].
  reflexivity.
Qed.

(** What [formatLabRange] evaluates to, template by template: empty unless
    the datatype code is "NM"; for "NM" the bounds that are present, the
    template's space and the unit segment, which has a space of its own
    before a non-empty unit; with neither bound the parenthesised unit
    segment when there is a unit, else empty. *)
Lemma formatLabRange_cases concept :
  (hl7Abbreviation (datatype concept) <> Some "NM" ->
     OrdersApp.formatLabRange concept = "")
  /\ (hl7Abbreviation (datatype concept) = Some "NM" ->
      (forall low hi,
          lowAbsolute concept = Some low -> hiAbsolute concept = Some hi ->
          OrdersApp.formatLabRange concept
          = " (" +:+ numberToString low +:+ " - " +:+ numberToString hi
                 +:+ " " +:+ Spec.unitSegment (units concept) +:+ ")")
      /\ (forall hi,
            lowAbsolute concept = None -> hiAbsolute concept = Some hi ->
            OrdersApp.formatLabRange concept
            = " (<= " +:+ numberToString hi
                      +:+ " " +:+ Spec.unitSegment (units concept) +:+ ")")
      /\ (forall low,
            lowAbsolute concept = Some low -> hiAbsolute concept = None ->
            OrdersApp.formatLabRange concept
            = " (>= " +:+ numberToString low
                      +:+ " " +:+ Spec.unitSegment (units concept) +:+ ")")
      /\ (lowAbsolute concept = None -> hiAbsolute concept = None ->
          OrdersApp.formatLabRange concept
          = if Js.truthy (units concept)
            then " (" +:+ Spec.unitSegment (units concept) +:+ ")"
            else "")
      /\ (forall low hi,
            lowAbsolute concept = Some low -> hiAbsolute concept = Some hi ->
            numberToString low = "3.5" -> numberToString hi = "10" ->
            units concept = Some "mg/dL" ->
            OrdersApp.formatLabRange concept = " (3.5 - 10  mg/dL)")).
Proof.
  unfold OrdersApp.formatLabRange. split.
  - intros Hnm. rewrite bool_decide_eq_false_2 by exact Hnm. reflexivity.
  - intros Hnm. rewrite bool_decide_eq_true_2 by exact Hnm. cbn [negb].
    rewrite unitSegment_displayUnit.
    repeat split.
    + intros low hi -> ->. reflexivity.
    + intros hi -> ->. reflexivity.
    + intros low -> ->. reflexivity.
    + intros -> ->. reflexivity.
    + intros low hi -> -> -> -> ->. reflexivity.
Qed.

(** C3.  A numeric concept with an upper bound that prints as 200, no lower
    bound and no unit has the suffix " (<= 200 )": the separating space stays
    before the closing parenthesis. *)
Theorem formatLabRange_upper_bound_only concept hi :
  hl7Abbreviation (datatype concept) = Some "NM" ->
  lowAbsolute concept = None ->
  hiAbsolute concept = Some hi ->
  numberToString hi = "200" ->
  Js.truthy (units concept) = false ->
  OrdersApp.formatLabRange concept = " (<= 200 )".
Proof.
  intros Hnm Hlow Hhi Hprint Hunit. unfold OrdersApp.formatLabRange.
  rewrite bool_decide_eq_true_2 by exact Hnm.
  rewrite Hlow, Hhi, Hunit, Hprint. reflexivity.
Qed.

(** *** Facts about one rendered concept *)

Lemma ConceptField_elem member defaultValue errors w :
  In w (OrdersApp.ConceptField member defaultValue errors) ->
  widget_name w = uuid member
  /\ widget_label w = Spec.composedLabel (widget_kind w) member
  /\ (widget_kind w = KSelect ->
      widget_defaultValue w
      = Some (OrdersApp.getSavedMemberValue defaultValue (uuid member)
                (datatype_display (datatype member)))).
Proof.
  unfold OrdersApp.ConceptField.
  destruct (isImage member useConfig); [|destruct (isText member);
    [|destruct (isNumeric member); [|destruct (isCoded member)]]];
    cbn; intros Hin; try tauto;
    destruct Hin as [<-|[]]; cbn; repeat split; try discriminate; reflexivity.
Qed.

Lemma in_when (cond : bool) (x w : Widget JsNumber) :
  In w (Part000.when cond x) -> w = x.
Proof. destruct cond; cbn; [intros [->|[]]|intros []]; reflexivity. Qed.

Lemma memberFragment_elem member defaultValue errors w :
  In w (Part000.memberFragment defaultValue errors member) ->
  widget_name w = uuid member
  /\ widget_label w = Spec.composedLabel (widget_kind w) member
  /\ (widget_kind w = KSelect ->
      widget_defaultValue w
      = Some (Part000.getSavedMemberValue defaultValue (uuid member)
                (datatype_display (datatype member)))).
Proof.
  unfold Part000.memberFragment. rewrite !in_app_iff.
  intros [H|[H|[H|H]]]; apply in_when in H; subst w; cbn;
    repeat split; try discriminate; reflexivity.
Qed.

Lemma Part000_elem concept defaultValue errors w :
  In w (Part000.ResultFormField concept defaultValue errors) ->
  (widget_name w = uuid concept
   /\ widget_label w = Spec.composedLabel (widget_kind w) concept)
  \/ exists member,
       In member (Spec.renderedMembers concept)
       /\ In w (Part000.memberFragment defaultValue errors member).
Proof.
  unfold Part000.ResultFormField, Spec.renderedMembers. rewrite !in_app_iff.
  intros [H|[H|[H|[H|H]]]];
    try (apply in_when in H; subst w; left; split; reflexivity).
  right. destruct (isPanel concept); [|destruct H].
  apply in_flat_map in H. exact H.
Qed.

Lemma OrdersApp_elem concept defaultValue errors w :
  In w (OrdersApp.ResultFormField concept defaultValue errors) ->
  In w (OrdersApp.ConceptField concept defaultValue errors)
  \/ exists member,
       In member (Spec.renderedMembers concept)
       /\ In w (OrdersApp.ConceptField member defaultValue errors).
Proof.
  unfold OrdersApp.ResultFormField, Spec.renderedMembers. rewrite in_app_iff.
  intros [H|H]; [left; exact H|right].
  destruct (isPanel concept); [|destruct H].
  apply in_flat_map in H. exact H.
Qed.

Lemma Forall2_map_self {A B} (P : A -> B -> Prop) (f : A -> B) (l : list A) :
  (forall x, P x (f x)) -> Forall2 P l (map f l).
Proof. intros HP. induction l; cbn; constructor; auto. Qed.

Lemma find_split {A} (p : A -> bool) (l : list A) :
  match find p l with
  | Some x =>
      exists before after,
        l = before ++ x :: after
        /\ Forall (fun y => p y = false) before /\ p x = true
  | None => Forall (fun y => p y = false) l
  end.
Proof.
  induction l as [|y l IH]; cbn; [constructor|].
  destruct (p y) eqn:Hy.
  - exists [], l. repeat split; [constructor|exact Hy].
  - destruct (find p l) as [x|].
    + destruct IH as (before & after & -> & Hb & Hx).
      exists (y :: before), after. repeat split; [constructor; assumption|exact Hx].
    + constructor; assumption.
Qed.

Lemma groupMemberLookup_find (obs : Observation JsNumber)
    (conceptUuid dataType : string) :
  Spec.groupMemberLookup obs conceptUuid dataType
    (Part000.getSavedMemberValue (Some obs) conceptUuid dataType).
Proof.
  unfold Part000.getSavedMemberValue, findGroupMember.
  destruct (groupMembers obs) as [members|] eqn:Hgm.
  - pose proof (find_split
      (fun gm : GroupMember JsNumber =>
         bool_decide (member_concept_uuid gm = conceptUuid))
      members) as Hsplit.
    destruct (find _ members) as [child|].
    + destruct Hsplit as (before & after & -> & Hb & Hx). cbn.
      eapply Spec.lookup_found; [exact Hgm| |].
      * eapply Forall_impl; [exact Hb|]. intros m Hm.
        apply bool_decide_eq_false in Hm. exact Hm.
      * apply bool_decide_eq_true in Hx. exact Hx.
    + replace (if bool_decide (dataType = "Coded") then _ else _)
        with (@VUndefined JsNumber) by (destruct (bool_decide _); reflexivity).
      eapply Spec.lookup_no_match; [exact Hgm|].
      eapply Forall_impl; [exact Hsplit|]. intros m Hm.
      apply bool_decide_eq_false in Hm. exact Hm.
  - replace (if bool_decide (dataType = "Coded") then _ else _)
      with (@VUndefined JsNumber) by (destruct (bool_decide _); reflexivity).
    apply Spec.lookup_no_members. exact Hgm.
Qed.

(** C4 (as amended).  Every rendered field is bound to the concept or to one
    of the rendered members, and its label is composed from that concept: for
    a text, number or select input the display name, followed by one space
    when the display name is non-empty, then the reference-range suffix; for
    an image input the display name alone, without suffix.  Both files compose
    labels this way. *)
Theorem label_composition concept defaultValue errors w :
  In w (OrdersApp.ResultFormField concept defaultValue errors)
  \/ In w (Part000.ResultFormField concept defaultValue errors) ->
  exists c,
    (c = concept \/ In c (Spec.renderedMembers concept))
    /\ widget_name w = uuid c
    /\ widget_label w = Spec.composedLabel (widget_kind w) c.
Proof.
  intros [H|H].
  - apply OrdersApp_elem in H. destruct H as [H|(member & Hm & H)].
    + exists concept. apply ConceptField_elem in H. tauto.
    + exists member. apply ConceptField_elem in H. tauto.
  - apply Part000_elem in H. destruct H as [H|(member & Hm & H)].
    + exists concept. tauto.
    + exists member. apply memberFragment_elem in H. tauto.
Qed.

(** C5 (as amended).  In the orders app component the default of a coded
    field is the top-level observation's value when the concept identifier
    equals the observation's own, and otherwise the result of the
    group-member search: the first child with that concept identifier gives
    its value's identifier when the datatype is "Coded" and its raw value
    otherwise, and no match, no member list or no observation gives
    undefined.  In [part_000] the default of a member's coded field is always
    the result of the group-member search. *)
Theorem saved_member_value_resolution (obs : Observation JsNumber)
    (conceptUuid dataType : string) :
  (obs_concept_uuid obs = Some conceptUuid ->
     OrdersApp.getSavedMemberValue (Some obs) conceptUuid dataType
     = obs_value obs)
  /\ (obs_concept_uuid obs <> Some conceptUuid ->
      Spec.groupMemberLookup obs conceptUuid dataType
        (OrdersApp.getSavedMemberValue (Some obs) conceptUuid dataType))
  /\ OrdersApp.getSavedMemberValue (JsNumber:=JsNumber) None conceptUuid dataType
     = VUndefined
  /\ Spec.groupMemberLookup obs conceptUuid dataType
       (Part000.getSavedMemberValue (Some obs) conceptUuid dataType)
  /\ Part000.getSavedMemberValue (JsNumber:=JsNumber) None conceptUuid dataType
     = VUndefined
  /\ (forall member defaultValue errors w,
        In w (OrdersApp.ConceptField member defaultValue errors) ->
        widget_kind w = KSelect ->
        widget_defaultValue w
        = Some (OrdersApp.getSavedMemberValue defaultValue (uuid member)
                  (datatype_display (datatype member))))
  /\ (forall member defaultValue errors w,
        In w (Part000.memberFragment defaultValue errors member) ->
        widget_kind w = KSelect ->
        widget_defaultValue w
        = Some (Part000.getSavedMemberValue defaultValue (uuid member)
                  (datatype_display (datatype member)))).
Proof.
  repeat split.
  - intros Heq. unfold OrdersApp.getSavedMemberValue. cbn.
    rewrite bool_decide_eq_true_2 by (symmetry; exact Heq). reflexivity.
  - intros Hne. unfold OrdersApp.getSavedMemberValue. cbn [mbind option_bind].
    rewrite bool_decide_eq_false_2 by (intros Heq; apply Hne; symmetry; exact Heq).
    apply groupMemberLookup_find.
  - unfold OrdersApp.getSavedMemberValue. cbn.
    destruct (bool_decide (dataType = "Coded")); reflexivity.
  - apply groupMemberLookup_find.
  - unfold Part000.getSavedMemberValue. cbn.
    destruct (bool_decide (dataType = "Coded")); reflexivity.
  - intros member defaultValue errors w Hin. apply ConceptField_elem in Hin. tauto.
  - intros member defaultValue errors w Hin. apply memberFragment_elem in Hin. tauto.
Qed.

Lemma length_when (cond : bool) (x : Widget JsNumber) :
  length (Part000.when cond x) = Nat.b2n cond.
Proof. destruct cond; reflexivity. Qed.

(** C6 (as amended).  For a panel, the resolver renders the concept's own
    widgets and then, member by member in the order of the member list, the
    widgets of each member, all bound to that member's identifier: in the
    orders app component one widget for a member that is image, free text,
    numeric or coded and none for any other member; in [part_000] one widget
    for each of the four predicates that holds of the member.  Nothing is
    rendered for the members of a member. *)
Theorem panel_members_rendering concept defaultValue errors :
  isPanel concept = true ->
  (exists perMember,
      OrdersApp.ResultFormField concept defaultValue errors
      = OrdersApp.ConceptField concept defaultValue errors ++ concat perMember
      /\ Forall2 (fun member ws =>
                    length ws = (if Spec.classified member then 1 else 0)%nat
                    /\ Forall (fun w => widget_name w = uuid member) ws)
                 (setMembers concept) perMember)
  /\ (exists own perMember,
         Part000.ResultFormField concept defaultValue errors
         = own ++ concat perMember
         /\ Forall (fun w => widget_name w = uuid concept) own
         /\ Forall2 (fun member ws =>
                       length ws
                       = (Nat.b2n (isText member) + Nat.b2n (isNumeric member)
                          + Nat.b2n (isCoded member)
                          + Nat.b2n (isImage member useConfig))%nat
                       /\ Forall (fun w => widget_name w = uuid member) ws)
                    (setMembers concept) perMember).
Proof.
  intros Hpanel. split.
  - exists (map (fun member => OrdersApp.ConceptField member defaultValue errors)
                (setMembers concept)).
    split.
    + unfold OrdersApp.ResultFormField. rewrite Hpanel, flat_map_concat_map.
      reflexivity.
    + apply Forall2_map_self. intros member.
      split; [apply ConceptField_length|apply ConceptField_names].
  - eexists _, (map (Part000.memberFragment defaultValue errors)
                    (setMembers concept)).
    split; [|split].
    + unfold Part000.ResultFormField. rewrite Hpanel, flat_map_concat_map.
      rewrite !app_assoc. reflexivity.
    + rewrite !Forall_app. repeat split;
        match goal with
        | |- Forall _ (Part000.when ?b _) => destruct b; repeat constructor
        end.
    + apply Forall2_map_self. intros member. split.
      * unfold Part000.memberFragment. rewrite !length_app, !length_when. lia.
      * apply Forall_forall. intros w Hin.
        apply list_elem_of_In, memberFragment_elem in Hin. tauto.
Qed.

(** *** Comparing the two files *)

Lemma getSavedMemberValue_agree defaultValue (conceptUuid dataType : string) :
  match defaultValue with
  | None => True
  | Some obs => obs_concept_uuid obs <> Some conceptUuid
  end ->
  OrdersApp.getSavedMemberValue defaultValue conceptUuid dataType
  = Part000.getSavedMemberValue defaultValue conceptUuid dataType.
Proof.
  unfold OrdersApp.getSavedMemberValue, Part000.getSavedMemberValue.
  destruct defaultValue as [obs|]; cbn; intros Hne.
  - rewrite bool_decide_eq_false_2; [reflexivity|].
    intros Heq. apply Hne. symmetry. exact Heq.
  - destruct (bool_decide (dataType = "Coded")); reflexivity.
Qed.

(** *** The image capture adapter *)

(** Runs a handler: unfolds it down to the primitives of the monad. *)
Ltac run_M :=
  unfold ImageHandlerInput.handleRemoveImage, ImageHandlerInput.saveFile,
    ImageHandlerInput.closeModal, ImageHandlerInput.showImageCaptureModal,
    mbind, M_bind, mret, M_ret, setFormValue, showSnackbar, showModal,
    closeHandle;
  cbn.

Lemma canonicalize_p (c : ascii) :
  Ascii.eqb (Js.canonicalize "p") (Js.canonicalize c) = true
  <-> c = "p"%char \/ c = "P"%char.
Proof.
  destruct c as [[] [] [] [] [] [] [] []]; vm_compute; split; intros H;
    try discriminate H; try (destruct H as [H|H]; discriminate H);
    first [left; reflexivity | right; reflexivity | reflexivity].
Qed.

Lemma canonicalize_d (c : ascii) :
  Ascii.eqb (Js.canonicalize "d") (Js.canonicalize c) = true
  <-> c = "d"%char \/ c = "D"%char.
Proof.
  destruct c as [[] [] [] [] [] [] [] []]; vm_compute; split; intros H;
    try discriminate H; try (destruct H as [H|H]; discriminate H);
    first [left; reflexivity | right; reflexivity | reflexivity].
Qed.

Lemma canonicalize_f (c : ascii) :
  Ascii.eqb (Js.canonicalize "f") (Js.canonicalize c) = true
  <-> c = "f"%char \/ c = "F"%char.
Proof.
  destruct c as [[] [] [] [] [] [] [] []]; vm_compute; split; intros H;
    try discriminate H; try (destruct H as [H|H]; discriminate H);
    first [left; reflexivity | right; reflexivity | reflexivity].
Qed.

Lemma match_here_pdf (s : string) :
  Js.match_here "pdf" s = true
  <-> exists (p d f : ascii) (post : string),
        s = String p (String d (String f post))
        /\ (p = "p"%char \/ p = "P"%char)
        /\ (d = "d"%char \/ d = "D"%char)
        /\ (f = "f"%char \/ f = "F"%char).
Proof.
  split.
  - destruct s as [|p [|d [|f post]]]; cbn [Js.match_here];
      rewrite ?andb_false_r; try discriminate.
    rewrite andb_true_r, !andb_true_iff.
    rewrite canonicalize_p, canonicalize_d, canonicalize_f.
    intros (Hp & Hd & Hf). exists p, d, f, post. tauto.
  - intros (p & d & f & post & -> & Hp & Hd & Hf). cbn [Js.match_here].
    rewrite andb_true_r, !andb_true_iff.
    rewrite canonicalize_p, canonicalize_d, canonicalize_f. tauto.
Qed.

Lemma regex_test_pdf (ext : string) :
  Js.regex_test_i "pdf" ext = true <-> Spec.containsPdf ext.
Proof.
  unfold Spec.containsPdf. induction ext as [|a ext IH].
  - split.
    + cbn. discriminate.
    + intros ([|b pre] & post & p & d & f & Heq & _); discriminate Heq.
  - cbn [Js.regex_test_i]. rewrite orb_true_iff, match_here_pdf, IH. split.
    + intros [(p & d & f & post & Heq & H)|(pre & post & p & d & f & Heq & H)].
      * exists "", post, p, d, f. split; [exact Heq|exact H].
      * exists (String a pre), post, p, d, f. split; [|exact H].
        cbn. rewrite Heq. reflexivity.
    + intros ([|b pre] & post & p & d & f & Heq & H); cbn in Heq.
      * left. exists p, d, f, post. split; [exact Heq|exact H].
      * right. injection Heq as -> ->. exists pre, post, p, d, f.
        split; [reflexivity|exact H].
Qed.

(** C7.  The add-image action opens the capture workflow with the extensions
    of the collaborator's list that do not contain "pdf" in any letter case,
    in their original order; ["jpg"; "PDF"; "png"] gives ["jpg"; "png"]; a
    result that is absent or not a list gives the empty list. *)
Theorem allowed_extensions_filter (w : World) :
  (forall ext, Js.regex_test_i "pdf" ext = true <-> Spec.containsPdf ext)
  /\ exists props,
      modals (ImageHandlerInput.showImageCaptureModal w).2 !! nextModal w
      = Some ("capture-photo-modal", props)
      /\ collectDescription props = true
      /\ multipleFiles props = true
      /\ (forall exts,
            useAllowedFileExtensions = ExtArray exts ->
            allowedExtensions props
            = List.filter (fun ext => negb (Js.regex_test_i "pdf" ext)) exts)
      /\ (useAllowedFileExtensions = ExtArray ["jpg"; "PDF"; "png"] ->
          allowedExtensions props = ["jpg"; "png"])
      /\ ((forall exts, useAllowedFileExtensions <> ExtArray exts) ->
          allowedExtensions props = []).
Proof.
  split; [exact regex_test_pdf|].
  eexists. split; [|split; [|split; [|split; [|split]]]].
  - cbn. apply lookup_insert_eq.
  - reflexivity.
  - reflexivity.
  - cbn. intros exts ->. reflexivity.
  - cbn. intros ->. reflexivity.
  - cbn. intros Hnot.
    destruct useAllowedFileExtensions as [| | |exts]; try reflexivity.
    exfalso. exact (Hnot exts eq_refl).
Qed.

(** C8.  The remove action calls the setter once, with undefined, and then
    shows exactly one snackbar: the translation of "Image removed", of kind
    success, low contrast; with the setter bound to a form field, the form is
    left without a value for that field.  The save callback invoked with a
    file calls the setter with that file and then closes the workflow; with
    the bound setter the form holds the file for the field, and the adapter
    given that value shows the file as its one thumbnail.  Both hold from
    every state.  What a field shows while the form has no value for it is
    the form library's matter and is not stated. *)
Theorem image_adapter_transitions (setValue : option UploadedFile -> M unit)
    (name labelText : string) (close : nat) (file : UploadedFile) (w : World) :
  ImageHandlerInput.handleRemoveImage setValue w
  = showSnackbar
      {| title := t "imageRemoved" "Image removed";
         kind := "success";
         isLowContrast := true |}
      (setValue None w).2
  /\ (let w' := (ImageHandlerInput.handleRemoveImage (setFormValue name) w).2 in
      formValues w' !! name = None
      /\ snackbars w'
         = snackbars w
           ++ [{| title := t "imageRemoved" "Image removed";
                  kind := "success";
                  isLowContrast := true |}])
  /\ ImageHandlerInput.saveFile setValue close (Some file) w
     = closeHandle close (setValue (Some file) w).2
  /\ (let w' :=
        (ImageHandlerInput.saveFile (setFormValue name) close (Some file) w).2 in
      formValues w' !! name = Some file
      /\ snackbars w' = snackbars w
      /\ thumbnailGrid (ImageHandlerInput.render (Some file) labelText)
         = [{| src := base64Content file;
               alt := default (fileName file) (fileDescription file) |}]).
Proof.
  split; [|split; [|split]].
  - unfold ImageHandlerInput.handleRemoveImage, mbind, M_bind.
    destruct (setValue None w) as [[] w']. reflexivity.
  - run_M. split; [apply lookup_delete_eq|reflexivity].
  - unfold ImageHandlerInput.saveFile, mbind, M_bind.
    destruct (setValue (Some file) w) as [[] w']. reflexivity.
  - run_M. split; [apply lookup_insert_eq|]. split; reflexivity.
Qed.

(** C9.  The close callback, and the save callback invoked without a file, do
    nothing but close the workflow, whatever the setter is: the setter is not
    called and every field keeps its value.  A save with a file closes the
    workflow after the setter has run, so the workflow is closed in every
    case. *)
Theorem dismissal_leaves_value (setValue : option UploadedFile -> M unit)
    (name : string) (close : nat) (file : UploadedFile) (w : World) :
  ImageHandlerInput.closeModal close w = closeHandle close w
  /\ ImageHandlerInput.saveFile setValue close None w = closeHandle close w
  /\ ImageHandlerInput.saveFile setValue close (Some file) w
     = closeHandle close (setValue (Some file) w).2
  /\ (forall field,
        fieldValue field (closeHandle close w).2 = fieldValue field w)
  /\ snackbars (closeHandle close w).2 = snackbars w
  /\ modals (closeHandle close w).2 !! close = None
  /\ modals (ImageHandlerInput.saveFile (setFormValue name) close (Some file) w).2
       !! close = None.
Proof.
  split; [reflexivity|]. split; [reflexivity|].
  split; [unfold ImageHandlerInput.saveFile, mbind, M_bind;
          destruct (setValue (Some file) w) as [[] w']; reflexivity|].
  repeat split; run_M; apply lookup_delete_eq.
Qed.

End Claims.

(** * Further properties of the components *)

Section Further.
Context {JsNumber ConfigObject : Type} `{!Collaborators JsNumber ConfigObject}.
Implicit Types (concept member : LabOrderConcept JsNumber).
Implicit Types (defaultValue : option (Observation JsNumber)).
Implicit Types (errors : gmap string FieldError).

Lemma flat_map_ext_Forall {A B} (f g : A -> list B) (l : list A) :
  Forall (fun x => f x = g x) l -> flat_map f l = flat_map g l.
Proof.
  intros Hl. induction Hl as [|x l Hx _ IH]; cbn; [reflexivity|].
  rewrite Hx, IH. reflexivity.
Qed.

Lemma map_flat_map {A B C} (h : B -> C) (f : A -> list B) (l : list A) :
  map h (flat_map f l) = flat_map (fun x => map h (f x)) l.
Proof.
  induction l as [|x l IH]; cbn; [reflexivity|].
  rewrite (map_app h), IH. reflexivity.
Qed.

(** *** The error map *)

Lemma ConceptField_errors concept defaultValue errors errors' :
  errors !! uuid concept = errors' !! uuid concept ->
  OrdersApp.ConceptField concept defaultValue errors
  = OrdersApp.ConceptField concept defaultValue errors'.
Proof. intros Heq. unfold OrdersApp.ConceptField. rewrite Heq. reflexivity. Qed.

Lemma memberFragment_errors member defaultValue errors errors' :
  errors !! uuid member = errors' !! uuid member ->
  Part000.memberFragment defaultValue errors member
  = Part000.memberFragment defaultValue errors' member.
Proof. intros Heq. unfold Part000.memberFragment. rewrite Heq. reflexivity. Qed.

(** X1.  A rendering reads the error map only at the identifiers of the
    concept and of the rendered members: two error maps that agree there give
    the same rendering, in both files. *)
Theorem errors_read_at_rendered_names concept defaultValue errors errors' :
  Forall (fun c => errors !! uuid c = errors' !! uuid c)
         (renderedConcepts concept) ->
  OrdersApp.ResultFormField concept defaultValue errors
  = OrdersApp.ResultFormField concept defaultValue errors'
  /\ Part000.ResultFormField concept defaultValue errors
     = Part000.ResultFormField concept defaultValue errors'.
Proof.
  unfold renderedConcepts, Spec.renderedMembers. intros Hagree.
  apply Forall_cons in Hagree. destruct Hagree as [Hown Hmembers]. split.
  - unfold OrdersApp.ResultFormField.
    rewrite (ConceptField_errors _ _ _ _ Hown).
    destruct (isPanel concept); [|reflexivity]. f_equal.
    apply flat_map_ext_Forall.
    eapply Forall_impl; [exact Hmembers|]. intros member Hm.
    apply ConceptField_errors. exact Hm.
  - unfold Part000.ResultFormField. rewrite Hown.
    destruct (isPanel concept); [|reflexivity]. do 4 f_equal.
    apply flat_map_ext_Forall.
    eapply Forall_impl; [exact Hmembers|]. intros member Hm.
    apply memberFragment_errors. exact Hm.
Qed.

Lemma ConceptField_validation member defaultValue errors w :
  In w (OrdersApp.ConceptField member defaultValue errors) ->
  widget_validation w
  = match widget_kind w with
    | KImage => None
    | _ => Some (errors !! widget_name w ≫= message,
                 bool_decide (is_Some (errors !! widget_name w))
                 || Js.inherited (widget_name w))
    end.
Proof.
  unfold OrdersApp.ConceptField.
  destruct (isImage member useConfig); [|destruct (isText member);
    [|destruct (isNumeric member); [|destruct (isCoded member)]]];
    cbn; intros Hin; try tauto; destruct Hin as [<-|[]]; reflexivity.
Qed.

Lemma memberFragment_validation member defaultValue errors w :
  In w (Part000.memberFragment defaultValue errors member) ->
  widget_validation w
  = match widget_kind w with
    | KImage => None
    | _ => Some (errors !! widget_name w ≫= message,
                 bool_decide (is_Some (errors !! widget_name w))
                 || Js.inherited (widget_name w))
    end.
Proof.
  unfold Part000.memberFragment. rewrite !in_app_iff.
  intros [H|[H|[H|H]]]; apply in_when in H; subst w; reflexivity.
Qed.

(** X2.  Every text, number or select input that is rendered is marked
    invalid exactly when the error map has an entry under the field's name or
    that name is one every object inherits a member under, and it shows the
    message of the entry; a message is never shown on an input that is not
    marked invalid.  An image input carries no validation state. *)
Theorem validation_from_error_map concept defaultValue errors w :
  In w (OrdersApp.ResultFormField concept defaultValue errors)
  \/ In w (Part000.ResultFormField concept defaultValue errors) ->
  widget_validation w
  = match widget_kind w with
    | KImage => None
    | _ => Some (errors !! widget_name w ≫= message,
                 bool_decide (is_Some (errors !! widget_name w))
                 || Js.inherited (widget_name w))
    end
  /\ (forall text invalid,
        widget_validation w = Some (Some text, invalid) -> invalid = true).
Proof.
  intros Hin.
  assert (Hval : widget_validation w
                 = match widget_kind w with
                   | KImage => None
                   | _ => Some (errors !! widget_name w ≫= message,
                                bool_decide (is_Some (errors !! widget_name w))
                 || Js.inherited (widget_name w))
                   end).
  { destruct Hin as [H|H].
    - apply OrdersApp_elem in H. destruct H as [H|(member & _ & H)];
        eapply ConceptField_validation; exact H.
    - unfold Part000.ResultFormField in H. rewrite !in_app_iff in H.
      destruct H as [H|[H|[H|[H|H]]]];
        try (apply in_when in H; subst w; reflexivity).
      destruct (isPanel concept); [|destruct H].
      apply in_flat_map in H. destruct H as (member & _ & H).
      eapply memberFragment_validation; exact H. }
  split; [exact Hval|].
  intros text invalid Hsome. rewrite Hval in Hsome.
  destruct (widget_kind w); [discriminate Hsome|..];
    injection Hsome as Htext <-;
    destruct (errors !! widget_name w); try discriminate Htext; reflexivity.
Qed.

(** *** The prior observation *)

Lemma ConceptField_clear member defaultValue defaultValue' errors :
  map clear_defaultValue (OrdersApp.ConceptField member defaultValue errors)
  = map clear_defaultValue (OrdersApp.ConceptField member defaultValue' errors).
Proof.
  unfold OrdersApp.ConceptField.
  destruct (isImage member useConfig), (isText member),
    (isNumeric member), (isCoded member); reflexivity.
Qed.

Lemma memberFragment_clear member defaultValue defaultValue' errors :
  map clear_defaultValue (Part000.memberFragment defaultValue errors member)
  = map clear_defaultValue (Part000.memberFragment defaultValue' errors member).
Proof.
  unfold Part000.memberFragment.
  destruct (isImage member useConfig), (isText member),
    (isNumeric member), (isCoded member); reflexivity.
Qed.

(** X3.  The prior observation reaches nothing but the default value of the
    selects: which inputs are rendered, their order, fields, identifiers,
    labels, validation state and options are the same for any two
    observations (or none), in both files. *)
Theorem observation_only_prefills concept defaultValue defaultValue' errors :
  map clear_defaultValue (OrdersApp.ResultFormField concept defaultValue errors)
  = map clear_defaultValue
        (OrdersApp.ResultFormField concept defaultValue' errors)
  /\ map clear_defaultValue (Part000.ResultFormField concept defaultValue errors)
     = map clear_defaultValue
         (Part000.ResultFormField concept defaultValue' errors).
Proof.
  split.
  - unfold OrdersApp.ResultFormField. rewrite !(map_app clear_defaultValue).
    rewrite (ConceptField_clear concept defaultValue defaultValue').
    f_equal. destruct (isPanel concept); [|reflexivity].
    rewrite !map_flat_map. apply flat_map_ext_Forall, Forall_forall.
    intros member _. apply ConceptField_clear.
  - unfold Part000.ResultFormField. rewrite !(map_app clear_defaultValue).
    do 3 f_equal.
    { destruct (isCoded concept); reflexivity. }
    f_equal. destruct (isPanel concept); [|reflexivity].
    rewrite !map_flat_map. apply flat_map_ext_Forall, Forall_forall.
    intros member _. apply memberFragment_clear.
Qed.

(** *** The two files side by side *)

Lemma shape_options_agree {A} (xs : option (list A)) (f : A -> SelectChild) :
  omap (fun child =>
          match child with
          | SelectItem text value => Some (text, value)
          | TextNode _ => None
          end) (Js.and_length xs f)
  = omap (fun child =>
            match child with
            | SelectItem text value => Some (text, value)
            | TextNode _ => None
            end) (Js.opt_map xs f).
Proof. destruct xs as [[|x l]|]; reflexivity. Qed.

Lemma sublist_single {A} (x : A) (l : list A) : In x l -> [x] `sublist_of` l.
Proof.
  induction l as [|y l IH]; cbn; [tauto|]. intros [->|Hin].
  - apply sublist_skip, sublist_nil_l.
  - apply sublist_cons, IH, Hin.
Qed.

Lemma sublist_flat_map {A B} (f g : A -> list B) (l : list A) :
  (forall x, f x `sublist_of` g x) ->
  flat_map f l `sublist_of` flat_map g l.
Proof.
  intros Hfg. induction l as [|x l IH]; cbn; [constructor|].
  apply sublist_app; [apply Hfg|exact IH].
Qed.

Lemma member_shapes_sublist member defaultValue errors :
  map widget_shape (OrdersApp.ConceptField member defaultValue errors)
  `sublist_of`
  map widget_shape (Part000.memberFragment defaultValue errors member).
Proof.
  unfold OrdersApp.ConceptField, Part000.memberFragment.
  destruct (isImage member useConfig), (isText member),
    (isNumeric member), (isCoded member); cbn;
    try apply sublist_nil_l; apply sublist_single; cbn;
    unfold widget_shape; cbn; rewrite ?shape_options_agree; tauto.
Qed.

(** X4.  Whatever the predicates answer, everything the orders app component
    renders is also rendered by [part_000], with the same kind, field, label,
    validation state and options and in the same relative order; [part_000]
    may render more. *)
Theorem orders_app_within_part000 concept defaultValue errors :
  map widget_shape (OrdersApp.ResultFormField concept defaultValue errors)
  `sublist_of`
  map widget_shape (Part000.ResultFormField concept defaultValue errors).
Proof.
  unfold OrdersApp.ResultFormField, Part000.ResultFormField.
  set (fromOrdersApp :=
         if isPanel concept
         then flat_map (fun member =>
                          OrdersApp.ConceptField member defaultValue errors)
                       (setMembers concept)
         else []).
  set (fromPart000 :=
         if isPanel concept
         then flat_map (Part000.memberFragment defaultValue errors)
                       (setMembers concept)
         else []).
  assert (Hmembers : map widget_shape fromOrdersApp
                     `sublist_of` map widget_shape fromPart000).
  { subst fromOrdersApp fromPart000.
    destruct (isPanel concept); [|constructor].
    rewrite !map_flat_map. apply sublist_flat_map.
    intros member. apply member_shapes_sublist. }
  clearbody fromOrdersApp fromPart000. unfold OrdersApp.ConceptField.
  destruct (isImage concept useConfig), (isText concept),
    (isNumeric concept), (isCoded concept);
    cbn [Part000.when app map];
    repeat first [exact Hmembers | apply sublist_skip | apply sublist_cons].
Qed.

Lemma ConceptField_names_sublist concept defaultValue errors :
  map widget_name (OrdersApp.ConceptField concept defaultValue errors)
  `sublist_of` [uuid concept].
Proof.
  unfold OrdersApp.ConceptField.
  destruct (isImage concept useConfig), (isText concept),
    (isNumeric concept), (isCoded concept); cbn;
    first [apply sublist_nil_l | reflexivity].
Qed.

(** X5.  The fields the orders app component binds are, in order, a
    subsequence of the identifiers of the concept and of the rendered
    members; so when those identifiers are pairwise distinct no two inputs
    are bound to the same field. *)
Theorem orders_app_fields_distinct concept defaultValue errors :
  map widget_name (OrdersApp.ResultFormField concept defaultValue errors)
  `sublist_of` map uuid (renderedConcepts concept)
  /\ (NoDup (map uuid (renderedConcepts concept)) ->
      NoDup (map widget_name
               (OrdersApp.ResultFormField concept defaultValue errors))).
Proof.
  assert (Hsub :
    map widget_name (OrdersApp.ResultFormField concept defaultValue errors)
    `sublist_of` map uuid (renderedConcepts concept)).
  { unfold OrdersApp.ResultFormField, renderedConcepts, Spec.renderedMembers.
    rewrite (map_app widget_name).
    change (map uuid (concept :: ?l)) with ([uuid concept] ++ map uuid l).
    apply sublist_app; [apply ConceptField_names_sublist|].
    destruct (isPanel concept); [|constructor].
    induction (setMembers concept) as [|member members IH]; [constructor|].
    cbn [flat_map map]. rewrite (map_app widget_name).
    change (uuid member :: ?l) with ([uuid member] ++ l).
    apply sublist_app; [apply ConceptField_names_sublist|exact IH]. }
  split; [exact Hsub|].
  intros Hnodup. exact (sublist_NoDup _ _ Hnodup Hsub).
Qed.

(** X6.  When a concept is designated as image-capturing and is free text as
    well, the orders app component renders the image input alone, while
    [part_000] renders a text input and an image input bound to the same
    field. *)
Theorem image_designation_overrides concept defaultValue errors :
  isImage concept useConfig = true ->
  isText concept = true ->
  map widget_kind (OrdersApp.ConceptField concept defaultValue errors)
  = [KImage]
  /\ In (KText, uuid concept)
        (map (fun w => (widget_kind w, widget_name w))
             (Part000.ResultFormField concept defaultValue errors))
  /\ In (KImage, uuid concept)
        (map (fun w => (widget_kind w, widget_name w))
             (Part000.ResultFormField concept defaultValue errors))
  /\ ~ NoDup (map widget_name
                 (Part000.ResultFormField concept defaultValue errors)).
Proof.
  intros Himage Htext.
  unfold OrdersApp.ConceptField, Part000.ResultFormField.
  rewrite Himage, Htext. split; [reflexivity|].
  split; [cbn; left; reflexivity|].
  split.
  - rewrite !(map_app (fun w => (widget_kind w, widget_name w))), !in_app_iff.
    right. right. right. left. cbn. left. reflexivity.
  - cbn [Part000.when app map widget_name]. intros Hnodup.
    apply NoDup_cons in Hnodup. destruct Hnodup as [Hnotin _].
    apply Hnotin. rewrite !(map_app widget_name).
    apply list_elem_of_In. rewrite !in_app_iff.
    right. right. left. reflexivity.
Qed.

(** *** The options of a select *)

Lemma and_length_options (xs : option (list Answer)) :
  omap (fun child =>
          match child with
          | SelectItem text value => Some (text, value)
          | TextNode _ => None
          end)
       (Js.and_length xs
          (fun answer => SelectItem (answer_display answer) (answer_uuid answer)))
  = map (fun answer => (answer_display answer, answer_uuid answer))
        (default [] xs).
Proof.
  rewrite shape_options_agree. destruct xs as [l|]; [|reflexivity].
  cbn. induction l as [|a l IH]; cbn; [reflexivity|].
  f_equal. exact IH.
Qed.

Lemma ConceptField_options member defaultValue errors w :
  In w (OrdersApp.ConceptField member defaultValue errors) ->
  widget_kind w = KSelect ->
  widget_options w = answerOptions member.
Proof.
  unfold OrdersApp.ConceptField, answerOptions.
  destruct (isImage member useConfig); [|destruct (isText member);
    [|destruct (isNumeric member); [|destruct (isCoded member)]]];
    cbn; intros Hin; try tauto; destruct Hin as [<-|[]]; try discriminate.
  intros _. cbn. f_equal. apply and_length_options.
Qed.

Lemma memberFragment_options member defaultValue errors w :
  In w (Part000.memberFragment defaultValue errors member) ->
  widget_kind w = KSelect ->
  widget_options w = answerOptions member.
Proof.
  unfold Part000.memberFragment, answerOptions. rewrite !in_app_iff.
  intros [H|[H|[H|H]]]; apply in_when in H; subst w; try discriminate.
  intros _. cbn. f_equal. rewrite <- shape_options_agree.
  apply and_length_options.
Qed.

(** X7.  Every select that is rendered, in either file, belongs to the
    concept or to a rendered member and offers the placeholder "Choose an
    option" with the empty value first, then one option per answer of that
    concept, in the order of the answers, with the answer's display name as
    text and its identifier as value; an absent or empty answer list leaves
    the placeholder alone. *)
Theorem select_options_are_answers concept defaultValue errors w :
  In w (OrdersApp.ResultFormField concept defaultValue errors)
  \/ In w (Part000.ResultFormField concept defaultValue errors) ->
  widget_kind w = KSelect ->
  exists c,
    In c (renderedConcepts concept)
    /\ widget_name w = uuid c
    /\ widget_options w = answerOptions c.
Proof.
  unfold renderedConcepts. intros [H|H] Hkind.
  - apply OrdersApp_elem in H. destruct H as [H|(member & Hm & H)].
    + exists concept. split; [left; reflexivity|].
      split; [apply (ConceptField_elem _ _ _ _ H)|].
      eapply ConceptField_options; eassumption.
    + exists member. split; [right; exact Hm|].
      split; [apply (ConceptField_elem _ _ _ _ H)|].
      eapply ConceptField_options; eassumption.
  - unfold Part000.ResultFormField in H. rewrite !in_app_iff in H.
    destruct H as [H|[H|[H|[H|H]]]];
      try (apply in_when in H; subst w; try discriminate Hkind).
    + exists concept. split; [left; reflexivity|]. split; [reflexivity|].
      cbn. unfold answerOptions. f_equal. apply and_length_options.
    + unfold Spec.renderedMembers.
      destruct (isPanel concept); [|destruct H].
      apply in_flat_map in H. destruct H as (member & Hm & H).
      exists member. split; [right; exact Hm|].
      split; [apply (memberFragment_elem _ _ _ _ H)|].
      eapply memberFragment_options; eassumption.
Qed.

(** X8.  In the orders app component the children of a select contain the
    text "0" exactly when the concept's answer list is present and empty: the
    guard [answers?.length && ...] then evaluates to the number 0, which is
    rendered.  No other input has such a child. *)
Theorem empty_answers_render_zero member defaultValue errors w :
  In w (OrdersApp.ConceptField member defaultValue errors) ->
  In (TextNode "0") (widget_children w)
  <-> widget_kind w = KSelect /\ answers member = Some [].
Proof.
  unfold OrdersApp.ConceptField.
  destruct (isImage member useConfig); [|destruct (isText member);
    [|destruct (isNumeric member); [|destruct (isCoded member)]]];
    cbn; intros Hin; try tauto; destruct Hin as [<-|[]]; cbn;
    try (split; [tauto|intros [Hk _]; discriminate Hk]).
  destruct (answers member) as [[|a l]|]; cbn.
  - split; [intros _; split; reflexivity|tauto].
  - split; [|intros [_ H]; discriminate H].
    intros [H|[H|H]]; try discriminate H.
    apply in_map_iff in H. destruct H as (x & Hx & _). discriminate Hx.
  - split; [|intros [_ H]; discriminate H].
    intros [H|[]]. discriminate H.
Qed.

(** X18.  For a concept that is not a panel, [part_000] reads the value of
    the prior observation and nothing else of it: it does not compare the
    observation's concept with the one being rendered, and it does not look
    at the group members. *)
Theorem part000_top_level_reads_value_only concept errors
    (obs obs' : Observation JsNumber) :
  isPanel concept = false ->
  obs_value obs = obs_value obs' ->
  Part000.ResultFormField concept (Some obs) errors
  = Part000.ResultFormField concept (Some obs') errors.
Proof.
  intros Hpanel Hvalue. unfold Part000.ResultFormField.
  rewrite Hpanel. cbn [from_option]. rewrite Hvalue. reflexivity.
Qed.

(** *** The saved value of a member *)

Lemma find_first_match {A} (p : A -> bool) (before after : list A) (x : A) :
  Forall (fun y => p y = false) before -> p x = true ->
  find p (before ++ x :: after) = Some x.
Proof.
  intros Hb Hx. induction Hb as [|y before Hy _ IH]; cbn.
  - rewrite Hx. reflexivity.
  - rewrite Hy. exact IH.
Qed.

Lemma find_no_match {A} (p : A -> bool) (l : list A) :
  Forall (fun y => p y = false) l -> find p l = None.
Proof.
  intros Hl. induction Hl as [|y l Hy _ IH]; cbn; [reflexivity|].
  rewrite Hy. exact IH.
Qed.

Lemma groupMemberLookup_unique (obs : Observation JsNumber)
    (conceptUuid dataType : string) (v : JsValue JsNumber) :
  Spec.groupMemberLookup obs conceptUuid dataType v ->
  v = Part000.getSavedMemberValue (Some obs) conceptUuid dataType.
Proof.
  unfold Part000.getSavedMemberValue, findGroupMember.
  intros [before child after Hgm Hbefore Hchild|members Hgm Hnone|Hgm];
    rewrite Hgm.
  - rewrite find_first_match; [reflexivity| |].
    + eapply Forall_impl; [exact Hbefore|]. intros m Hm.
      apply bool_decide_eq_false_2. exact Hm.
    + apply bool_decide_eq_true_2. exact Hchild.
  - rewrite find_no_match.
    + destruct (bool_decide (dataType = "Coded")); reflexivity.
    + eapply Forall_impl; [exact Hnone|]. intros m Hm.
      apply bool_decide_eq_false_2. exact Hm.
  - destruct (bool_decide (dataType = "Coded")); reflexivity.
Qed.

(** X9.  The group-member search has one outcome only, the one
    [getSavedMemberValue] returns: among several children of the same
    concept the first one in the list decides, whatever follows it.  This is
    the whole of [part_000]'s function, and the orders app's one whenever the
    identifier is not the observation's own. *)
Theorem group_member_search_first_wins (obs : Observation JsNumber)
    (conceptUuid dataType : string) (v : JsValue JsNumber) :
  (Spec.groupMemberLookup obs conceptUuid dataType v
   <-> v = Part000.getSavedMemberValue (Some obs) conceptUuid dataType)
  /\ (obs_concept_uuid obs <> Some conceptUuid ->
      (Spec.groupMemberLookup obs conceptUuid dataType v
       <-> v = OrdersApp.getSavedMemberValue (Some obs) conceptUuid dataType))
  /\ (forall before child after,
        groupMembers obs = Some (before ++ child :: after) ->
        Forall (fun m => member_concept_uuid m <> conceptUuid) before ->
        member_concept_uuid child = conceptUuid ->
        Part000.getSavedMemberValue (Some obs) conceptUuid dataType
        = if bool_decide (dataType = "Coded")
          then opt_uuid (member_value child) else member_value child).
Proof.
  assert (Hiff : Spec.groupMemberLookup obs conceptUuid dataType v
                 <-> v = Part000.getSavedMemberValue (Some obs) conceptUuid
                           dataType).
  { split; [apply groupMemberLookup_unique|].
    intros ->. apply groupMemberLookup_find. }
  split; [exact Hiff|]. split.
  - intros Hne. rewrite Hiff.
    rewrite (getSavedMemberValue_agree (Some obs)) by exact Hne. reflexivity.
  - intros before child after Hgm Hbefore Hchild. symmetry.
    apply groupMemberLookup_unique.
    eapply Spec.lookup_found; eassumption.
Qed.

(** X10.  For the datatype "Coded" the group-member search yields either
    undefined or a string, the identifier carried by the matching child's
    value: a child whose value is a string, a number, null or an object
    without identifier pre-fills nothing. *)
Theorem coded_search_yields_identifier defaultValue (conceptUuid : string) :
  Part000.getSavedMemberValue defaultValue conceptUuid "Coded" = VUndefined
  \/ exists child identifier shown,
       findGroupMember defaultValue conceptUuid = Some child
       /\ member_value child = VObject (Some identifier) shown
       /\ Part000.getSavedMemberValue defaultValue conceptUuid "Coded"
          = VString identifier.
Proof.
  unfold Part000.getSavedMemberValue. cbn.
  destruct (findGroupMember defaultValue conceptUuid) as [child|];
    [|left; reflexivity].
  cbn. destruct (member_value child) as [| | | |[identifier|] shown] eqn:Hvalue;
    try (left; reflexivity).
  right. exists child, identifier, shown. repeat split. exact Hvalue.
Qed.

(** *** The reference-range suffix *)

Lemma append_assoc (a b c : string) : (a +:+ b) +:+ c = a +:+ b +:+ c.
Proof.
  induction a as [|x a IH]; [reflexivity|].
  change (String x ((a +:+ b) +:+ c) = String x (a +:+ b +:+ c)).
  f_equal. exact IH.
Qed.

(** X11.  The suffix is empty exactly when the datatype code is not "NM" or
    there is no lower limit, no upper limit and no non-empty unit; any other
    suffix is a space followed by a parenthesised text. *)
Theorem suffix_empty_or_parenthesised concept :
  (OrdersApp.formatLabRange concept = ""
   <-> hl7Abbreviation (datatype concept) <> Some "NM"
       \/ (lowAbsolute concept = None /\ hiAbsolute concept = None
           /\ Js.truthy (units concept) = false))
  /\ (OrdersApp.formatLabRange concept = ""
      \/ exists body, OrdersApp.formatLabRange concept = " (" +:+ body +:+ ")").
Proof.
  unfold OrdersApp.formatLabRange.
  destruct (bool_decide_reflect (hl7Abbreviation (datatype concept) = Some "NM"))
    as [Hnm|Hnm]; cbn [negb].
  2: { split; [|left; reflexivity]. split; [left; exact Hnm|reflexivity]. }
  set (displayUnit := if Js.truthy (units concept)
                      then " " +:+ default "" (units concept) else "").
  destruct (lowAbsolute concept) as [low|], (hiAbsolute concept) as [hi|].
  - split.
    + split; [discriminate|]. intros [H|(H & _)]; [contradiction|discriminate].
    + right.
      exists (numberToString low +:+ " - " +:+ numberToString hi
              +:+ " " +:+ displayUnit).
      rewrite !append_assoc. reflexivity.
  - split.
    + split; [discriminate|]. intros [H|(H & _)]; [contradiction|discriminate].
    + right. exists (">= " +:+ numberToString low +:+ " " +:+ displayUnit).
      rewrite !append_assoc. reflexivity.
  - split.
    + split; [discriminate|].
      intros [H|(_ & H & _)]; [contradiction|discriminate].
    + right. exists ("<= " +:+ numberToString hi +:+ " " +:+ displayUnit).
      rewrite !append_assoc. reflexivity.
  - subst displayUnit. destruct (Js.truthy (units concept)).
    + split.
      * split; [discriminate|].
        intros [H|(_ & _ & H)]; [contradiction|discriminate].
      * right. exists (" " +:+ default "" (units concept)). reflexivity.
    + split; [|left; reflexivity].
      split; [right; repeat split|reflexivity].
Qed.

(** X12.  The suffix depends on the concept through its datatype code, its two
    limits and its unit only, and an empty unit counts as no unit: two
    concepts that agree on the code and the limits and whose units are equal
    or both empty or absent have the same suffix, whatever their names,
    identifiers, answers and members. *)
Theorem suffix_reads_code_limits_unit concept concept' :
  hl7Abbreviation (datatype concept) = hl7Abbreviation (datatype concept') ->
  lowAbsolute concept = lowAbsolute concept' ->
  hiAbsolute concept = hiAbsolute concept' ->
  units concept = units concept'
  \/ (Js.truthy (units concept) = false /\ Js.truthy (units concept') = false) ->
  OrdersApp.formatLabRange concept = OrdersApp.formatLabRange concept'.
Proof.
  intros Hcode Hlow Hhi Hunits. unfold OrdersApp.formatLabRange.
  rewrite Hcode, Hlow, Hhi.
  destruct Hunits as [->|[-> ->]]; reflexivity.
Qed.

(** *** The image capture adapter *)

Ltac run_handlers :=
  unfold ImageHandlerInput.handleRemoveImage, ImageHandlerInput.saveFile,
    ImageHandlerInput.closeModal, ImageHandlerInput.showImageCaptureModal,
    mbind, M_bind, mret, M_ret, setFormValue, showSnackbar, showModal,
    closeHandle, fieldValue;
  cbn.

(** X13.  Starting from a field without a value, saving a file and then
    removing it brings the form values back to what they were; on the way the
    field held the file, and at the end one snackbar has been added and the
    workflow of the save is closed. *)
Theorem save_then_remove_restores (name : string) (close : nat)
    (file : UploadedFile) (w : World) :
  fieldValue name w = None ->
  let saved :=
    (ImageHandlerInput.saveFile (setFormValue name) close (Some file) w).2 in
  let removed :=
    (ImageHandlerInput.handleRemoveImage (setFormValue name) saved).2 in
  fieldValue name saved = Some file
  /\ formValues removed = formValues w
  /\ snackbars removed
     = snackbars w
       ++ [{| title := t "imageRemoved" "Image removed";
              kind := "success";
              isLowContrast := true |}]
  /\ modals removed = delete close (modals w).
Proof.
  intros Hempty. run_handlers. unfold fieldValue in Hempty.
  split; [apply lookup_insert_eq|].
  split; [apply delete_insert_id; exact Hempty|].
  split; reflexivity.
Qed.

(** X14.  The handlers bound to one field never change the value of another
    field, whatever they are called with; closing and opening the capture
    workflow change no value and show no snackbar, and saving shows no
    snackbar either. *)
Theorem handlers_touch_one_field (name other : string) (close : nat)
    (file : option UploadedFile) (w : World) :
  other <> name ->
  fieldValue other
    (ImageHandlerInput.saveFile (setFormValue name) close file w).2
  = fieldValue other w
  /\ fieldValue other
       (ImageHandlerInput.handleRemoveImage (setFormValue name) w).2
     = fieldValue other w
  /\ snackbars (ImageHandlerInput.saveFile (setFormValue name) close file w).2
     = snackbars w
  /\ formValues (ImageHandlerInput.closeModal close w).2 = formValues w
  /\ formValues (ImageHandlerInput.showImageCaptureModal w).2 = formValues w
  /\ snackbars (ImageHandlerInput.showImageCaptureModal w).2 = snackbars w.
Proof.
  intros Hother. split; [|split; [|split; [|repeat split]]].
  - destruct file as [file|]; run_handlers; [|reflexivity].
    apply lookup_insert_ne. congruence.
  - run_handlers. apply lookup_delete_ne. congruence.
  - destruct file as [file|]; reflexivity.
Qed.

(** X15.  The field holds one attachment at a time: a second save replaces
    the file of the first, leaving the form values as if only the second file
    had been saved, and the adapter never shows more than one thumbnail. *)
Theorem second_save_replaces (name labelText : string) (close close' : nat)
    (first second : UploadedFile) (value : option UploadedFile) (w : World) :
  let once :=
    (ImageHandlerInput.saveFile (setFormValue name) close (Some first) w).2 in
  let twice :=
    (ImageHandlerInput.saveFile (setFormValue name) close' (Some second) once).2 in
  fieldValue name twice = Some second
  /\ formValues twice
     = formValues
         (ImageHandlerInput.saveFile (setFormValue name) close' (Some second) w).2
  /\ (length (thumbnailGrid (ImageHandlerInput.render value labelText)) <= 1)%nat
  /\ (thumbnailGrid (ImageHandlerInput.render value labelText) = []
      <-> value = None).
Proof.
  run_handlers. split; [apply lookup_insert_eq|].
  split; [apply insert_insert_eq|].
  destruct value as [v|]; cbn; split; try lia; split; congruence.
Qed.

(** X16.  The remove action does not look at the field: it shows its snackbar
    every time it runs, also on a field that has no value, where it leaves
    the form values as they are; running it twice leaves the values as after
    the first run and shows two snackbars. *)
Theorem remove_notifies_every_time (name : string) (w : World) :
  let notice :=
    {| title := t "imageRemoved" "Image removed";
       kind := "success";
       isLowContrast := true |} in
  let once := (ImageHandlerInput.handleRemoveImage (setFormValue name) w).2 in
  let twice :=
    (ImageHandlerInput.handleRemoveImage (setFormValue name) once).2 in
  snackbars once = snackbars w ++ [notice]
  /\ snackbars twice = snackbars w ++ [notice; notice]
  /\ formValues twice = formValues once
  /\ (fieldValue name w = None -> formValues once = formValues w).
Proof.
  run_handlers. split; [reflexivity|].
  split; [rewrite <- app_assoc; reflexivity|].
  split.
  - apply delete_id, lookup_delete_eq.
  - intros Hempty. apply delete_id. exact Hempty.
Qed.

Lemma filter_Forall {A} (p : A -> bool) (l : list A) :
  Forall (fun x => p x = true) (List.filter p l).
Proof.
  induction l as [|x l IH]; cbn; [constructor|].
  destruct (p x) eqn:Hx; [constructor; assumption|exact IH].
Qed.

Lemma filter_sublist {A} (p : A -> bool) (l : list A) :
  List.filter p l `sublist_of` l.
Proof.
  induction l as [|x l IH]; cbn; [constructor|].
  destruct (p x); [apply sublist_skip|apply sublist_cons]; exact IH.
Qed.

Lemma filter_all {A} (p : A -> bool) (l : list A) :
  Forall (fun x => p x = true) l -> List.filter p l = l.
Proof.
  intros Hl. induction Hl as [|x l Hx _ IH]; cbn; [reflexivity|].
  rewrite Hx, IH. reflexivity.
Qed.

Lemma not_pdf_reflect (ext : string) :
  negb (Js.regex_test_i "pdf" ext) = true <-> ~ Spec.containsPdf ext.
Proof.
  rewrite <- regex_test_pdf. destruct (Js.regex_test_i "pdf" ext); cbn.
  - split; [discriminate|]. intros H. exfalso. apply H. reflexivity.
  - split; [discriminate|reflexivity].
Qed.

(** X17.  Whatever the hook returns, no extension passed to the capture
    workflow contains "pdf" in any letter case; when it returns a list, what
    is passed is a subsequence of it, and the whole list when none of its
    extensions contains "pdf". *)
Theorem capture_never_offers_pdf (w : World) :
  exists props,
    modals (ImageHandlerInput.showImageCaptureModal w).2 !! nextModal w
    = Some ("capture-photo-modal", props)
    /\ Forall (fun ext => ~ Spec.containsPdf ext) (allowedExtensions props)
    /\ (forall exts,
          useAllowedFileExtensions = ExtArray exts ->
          allowedExtensions props `sublist_of` exts
          /\ (Forall (fun ext => ~ Spec.containsPdf ext) exts ->
              allowedExtensions props = exts)).
Proof.
  eexists. split; [run_handlers; apply lookup_insert_eq|]. cbn. split.
  - destruct useAllowedFileExtensions as [| | |exts]; try constructor.
    eapply Forall_impl; [apply filter_Forall|].
    intros ext Hext. apply not_pdf_reflect. exact Hext.
  - intros exts ->. split; [apply filter_sublist|].
    intros Hnone. apply filter_all.
    eapply Forall_impl; [exact Hnone|].
    intros ext Hext. apply not_pdf_reflect. exact Hext.
Qed.

End Further.

(** * The two files compared exactly *)

Section Comparison.
Context {JsNumber ConfigObject : Type} `{!Collaborators JsNumber ConfigObject}.
Implicit Types (concept member : LabOrderConcept JsNumber).
Implicit Types (defaultValue : option (Observation JsNumber)).
Implicit Types (errors : gmap string FieldError).

Lemma Part000_own_then_members concept defaultValue errors :
  Part000.ResultFormField concept defaultValue errors
  = ownFragment concept defaultValue errors
    ++ (if isPanel concept
        then flat_map (Part000.memberFragment defaultValue errors)
                      (setMembers concept)
        else []).
Proof.
  unfold Part000.ResultFormField, ownFragment. rewrite <- !app_assoc.
  reflexivity.
Qed.

Lemma lookup_is_search (obs : Observation JsNumber)
    (conceptUuid dataType : string) (v : JsValue JsNumber) :
  Part000.getSavedMemberValue (Some obs) conceptUuid dataType = v
  <-> Spec.groupMemberLookup obs conceptUuid dataType v.
Proof.
  split.
  - intros <-. apply groupMemberLookup_find.
  - intros Hlookup. symmetry. apply groupMemberLookup_unique. exact Hlookup.
Qed.

Lemma value_is_own_identifier (v : JsValue JsNumber) :
  v = opt_uuid v <-> v = VUndefined.
Proof.
  destruct v as [| | | |[identifier|] shown]; cbn; split; intros H;
    try discriminate H; reflexivity.
Qed.

Lemma own_default_agrees concept defaultValue :
  OrdersApp.getSavedMemberValue defaultValue (uuid concept)
    (datatype_display (datatype concept))
  = opt_uuid (from_option obs_value VUndefined defaultValue)
  <-> ownPrefillAgrees concept defaultValue.
Proof.
  unfold ownPrefillAgrees. destruct defaultValue as [obs|].
  - unfold OrdersApp.getSavedMemberValue.
    cbn [mbind option_bind from_option].
    destruct (bool_decide_reflect (obs_concept_uuid obs = Some (uuid concept)))
      as [Hown|Hother].
    + rewrite bool_decide_eq_true_2 by (symmetry; exact Hown).
      apply value_is_own_identifier.
    + rewrite bool_decide_eq_false_2
        by (intros Heq; apply Hother; symmetry; exact Heq).
      apply lookup_is_search.
  - unfold OrdersApp.getSavedMemberValue. cbn.
    destruct (bool_decide (_ = "Coded")); split; intros _; reflexivity.
Qed.

Lemma member_default_agrees member defaultValue :
  OrdersApp.getSavedMemberValue defaultValue (uuid member)
    (datatype_display (datatype member))
  = Part000.getSavedMemberValue defaultValue (uuid member)
      (datatype_display (datatype member))
  <-> memberPrefillAgrees member defaultValue.
Proof.
  unfold memberPrefillAgrees. destruct defaultValue as [obs|].
  - destruct (decide (obs_concept_uuid obs = Some (uuid member)))
      as [Hown|Hother].
    + unfold OrdersApp.getSavedMemberValue at 1.
      cbn [mbind option_bind from_option].
      rewrite bool_decide_eq_true_2 by (symmetry; exact Hown).
      rewrite <- lookup_is_search. split.
      * intros Heq _. symmetry. exact Heq.
      * intros Heq. symmetry. exact (Heq Hown).
    + split; [intros _ Hown; contradiction|]. intros _.
      apply (getSavedMemberValue_agree (Some obs)). exact Hother.
  - split; [intros _; exact I|]. intros _.
    apply (getSavedMemberValue_agree None). exact I.
Qed.

Lemma own_views_agree concept defaultValue errors :
  map widget_view (OrdersApp.ConceptField concept defaultValue errors)
  = map widget_view (ownFragment concept defaultValue errors)
  <-> Spec.exclusive concept
      /\ (isCoded concept = true -> ownPrefillAgrees concept defaultValue).
Proof.
  rewrite <- own_default_agrees.
  unfold Spec.exclusive, OrdersApp.ConceptField, ownFragment.
  destruct (isImage concept useConfig), (isText concept),
    (isNumeric concept), (isCoded concept);
    cbn [Part000.when app map Nat.b2n Nat.add];
    try (split; [intros H; discriminate H|intros [H _]; lia]);
    try (split; [intros _; split; [lia|intros H; discriminate H]
                |intros _; reflexivity]).
  unfold widget_view. cbn. split.
  - intros H. injection H as H. split; [lia|]. intros _. exact H.
  - intros [_ H]. rewrite (H eq_refl). reflexivity.
Qed.

Lemma member_views_agree member defaultValue errors :
  map widget_view (OrdersApp.ConceptField member defaultValue errors)
  = map widget_view (Part000.memberFragment defaultValue errors member)
  <-> Spec.exclusive member
      /\ (isCoded member = true -> memberPrefillAgrees member defaultValue).
Proof.
  rewrite <- member_default_agrees.
  unfold Spec.exclusive, OrdersApp.ConceptField, Part000.memberFragment.
  destruct (isImage member useConfig), (isText member),
    (isNumeric member), (isCoded member);
    cbn [Part000.when app map Nat.b2n Nat.add];
    try (split; [intros H; discriminate H|intros [H _]; lia]);
    try (split; [intros _; split; [lia|intros H; discriminate H]
                |intros _; reflexivity]).
  unfold widget_view. cbn. rewrite shape_options_agree. split.
  - intros H. injection H as H. split; [lia|]. intros _. exact H.
  - intros [_ H]. rewrite (H eq_refl). reflexivity.
Qed.

Lemma own_length_le concept defaultValue errors :
  (length (OrdersApp.ConceptField concept defaultValue errors)
   <= length (ownFragment concept defaultValue errors))%nat.
Proof.
  unfold OrdersApp.ConceptField, ownFragment.
  destruct (isImage concept useConfig), (isText concept),
    (isNumeric concept), (isCoded concept); cbn; lia.
Qed.

Lemma member_length_le member defaultValue errors :
  (length (OrdersApp.ConceptField member defaultValue errors)
   <= length (Part000.memberFragment defaultValue errors member))%nat.
Proof.
  unfold OrdersApp.ConceptField, Part000.memberFragment.
  destruct (isImage member useConfig), (isText member),
    (isNumeric member), (isCoded member); cbn; lia.
Qed.

Lemma members_length_le defaultValue errors
    (members : list (LabOrderConcept JsNumber)) :
  (length (flat_map (fun member =>
                       OrdersApp.ConceptField member defaultValue errors)
                    members)
   <= length (flat_map (Part000.memberFragment defaultValue errors) members))%nat.
Proof.
  induction members as [|member members IH]; cbn; [lia|].
  rewrite !length_app.
  pose proof (member_length_le member defaultValue errors). lia.
Qed.

Lemma app_eq_split {A} (a1 a2 b1 b2 : list A) :
  (length a1 <= length a2)%nat -> (length b1 <= length b2)%nat ->
  a1 ++ b1 = a2 ++ b2 -> a1 = a2 /\ b1 = b2.
Proof.
  intros Ha Hb Heq. apply app_inj_1; [|exact Heq].
  apply (f_equal length) in Heq. rewrite !length_app in Heq. lia.
Qed.

Lemma members_views_agree defaultValue errors
    (members : list (LabOrderConcept JsNumber)) :
  map widget_view
      (flat_map (fun member =>
                   OrdersApp.ConceptField member defaultValue errors) members)
  = map widget_view
      (flat_map (Part000.memberFragment defaultValue errors) members)
  <-> Forall (fun member =>
                Spec.exclusive member
                /\ (isCoded member = true ->
                    memberPrefillAgrees member defaultValue)) members.
Proof.
  induction members as [|member members IH]; cbn [flat_map].
  - split; [constructor|reflexivity].
  - rewrite !(map_app widget_view), Forall_cons, <- IH,
      <- (member_views_agree member defaultValue errors).
    split.
    + apply app_eq_split; rewrite !length_map;
        [apply member_length_le|apply members_length_le].
    + intros [-> ->]. reflexivity.
Qed.

(** C10 (as amended).  The two files render the same sequence of inputs, bound
    to the same fields, with the same labels, options and pre-filled default
    values, exactly when (a) at most one of the image, free-text, numeric and
    coded predicates holds of the concept and of each rendered member, (b) if
    the concept is coded, its select gets the same default in both files:
    there is no prior observation, or the observation is the concept's own
    and its value is undefined, or it is another concept's and the
    group-member search for the concept resolves to the identifier of the
    observation's value, and (c) for each coded rendered member, its select
    gets the same default: there is no prior observation, or the observation
    is not the member's own, or the group-member search for the member
    resolves to the observation's value. *)
Theorem implementations_agree_exactly concept defaultValue errors :
  map widget_view (OrdersApp.ResultFormField concept defaultValue errors)
  = map widget_view (Part000.ResultFormField concept defaultValue errors)
  <-> Forall Spec.exclusive (renderedConcepts concept)
      /\ (isCoded concept = true -> ownPrefillAgrees concept defaultValue)
      /\ Forall (fun member =>
                   isCoded member = true ->
                   memberPrefillAgrees member defaultValue)
                (Spec.renderedMembers concept).
Proof.
  rewrite Part000_own_then_members. unfold OrdersApp.ResultFormField.
  unfold renderedConcepts, Spec.renderedMembers.
  rewrite !(map_app widget_view), Forall_cons.
  pose proof (own_views_agree concept defaultValue errors) as Hown.
  destruct (isPanel concept).
  - pose proof (members_views_agree defaultValue errors (setMembers concept))
      as Hmembers.
    rewrite Forall_and in Hmembers. split.
    + intros Heq. apply app_eq_split in Heq.
      * destruct Heq as [Heq1 Heq2].
        apply Hown in Heq1. apply Hmembers in Heq2. tauto.
      * rewrite !length_map. apply own_length_le.
      * rewrite !length_map. apply members_length_le.
    + intros ((Hex & Hexs) & Hpre & Hpres).
      f_equal; [apply Hown|apply Hmembers]; tauto.
  - rewrite !app_nil_r. rewrite Hown. split.
    + intros [Hex Hpre]. repeat split; [exact Hex|constructor|exact Hpre|constructor].
    + intros ((Hex & _) & Hpre & _). split; assumption.
Qed.

End Comparison.

(** * Concrete inputs *)

#[local] Existing Instance sampleCollaborators.

(** C1, counterexample.  A coded concept with members: the chain of the
    specification stops at the panel step and renders the member alone, the
    component renders the concept's own select and then the member. *)
Lemma priority_chain_panel_step_fails :
  map widget_kind
      (OrdersApp.ResultFormField Sample.codedPanel None Sample.noErrors)
  = [KSelect; KNumber]
  /\ map widget_kind
        (Spec.priorityChain Sample.codedPanel None Sample.noErrors)
     = [KNumber]
  /\ OrdersApp.ResultFormField Sample.codedPanel None Sample.noErrors
     <> Spec.priorityChain Sample.codedPanel None Sample.noErrors.
Proof.
  split; [vm_compute; reflexivity|]. split; [vm_compute; reflexivity|].
  intros Heq. apply (f_equal (map widget_kind)) in Heq.
  vm_compute in Heq. discriminate Heq.
Qed.

(** C2.  At the numeric concept with limits 3.5 and 10 and unit "mg/dL" the
    code returns " (3.5 - 10  mg/dL)": [displayUnit] already begins with the
    separating space and the template puts another one before it, so the
    suffix is not the " (3.5 - 10 mg/dL)" of the claim. *)
Lemma formatLabRange_example_fails :
  OrdersApp.formatLabRange Sample.creatinine = " (3.5 - 10  mg/dL)"
  /\ OrdersApp.formatLabRange Sample.creatinine <> " (3.5 - 10 mg/dL)".
Proof.
  split; [vm_compute; reflexivity|].
  intros Heq. vm_compute in Heq. discriminate Heq.
Qed.

Lemma formatLabRange_cases_witness :
  OrdersApp.formatLabRange Sample.culture = ""
  /\ OrdersApp.formatLabRange Sample.creatinine
     = " (" +:+ "3.5" +:+ " - " +:+ "10" +:+ " " +:+ " mg/dL" +:+ ")"
  /\ OrdersApp.formatLabRange Sample.cholesterol
     = " (<= " +:+ "200" +:+ " " +:+ "" +:+ ")"
  /\ OrdersApp.formatLabRange Sample.albumin
     = " (>= " +:+ "3.5" +:+ " " +:+ " g/dL" +:+ ")"
  /\ OrdersApp.formatLabRange Sample.cd4 = " (" +:+ " cells/uL" +:+ ")"
  /\ OrdersApp.formatLabRange Sample.creatinine = " (3.5 - 10  mg/dL)".
Proof.
  split; [|split; [|split; [|split; [|split]]]].
  - apply (proj1 (formatLabRange_cases Sample.culture)). discriminate.
  - destruct (proj2 (formatLabRange_cases Sample.creatinine) eq_refl)
      as (H & _).
    exact (H _ _ eq_refl eq_refl).
  - destruct (proj2 (formatLabRange_cases Sample.cholesterol) eq_refl)
      as (_ & H & _).
    exact (H _ eq_refl eq_refl).
  - destruct (proj2 (formatLabRange_cases Sample.albumin) eq_refl)
      as (_ & _ & H & _).
    exact (H _ eq_refl eq_refl).
  - destruct (proj2 (formatLabRange_cases Sample.cd4) eq_refl)
      as (_ & _ & _ & H & _).
    exact (H eq_refl eq_refl).
  - destruct (proj2 (formatLabRange_cases Sample.creatinine) eq_refl)
      as (_ & _ & _ & _ & H).
    exact (H _ _ eq_refl eq_refl eq_refl eq_refl eq_refl).
Defined.

Lemma formatLabRange_upper_bound_only_witness :
  OrdersApp.formatLabRange Sample.cholesterol = " (<= 200 )".
Proof.
  apply (formatLabRange_upper_bound_only Sample.cholesterol Sample.n200);
    reflexivity.
Defined.

(** C4, counterexample.  The label of a text field is the display name
    followed by a space, not the display name and the (here empty) suffix
    alone. *)
Lemma label_without_separator_fails :
  map widget_label
      (OrdersApp.ResultFormField Sample.culture None Sample.noErrors)
  = ["Culture result "]
  /\ Spec.label Sample.culture = "Culture result"
  /\ map widget_label
        (OrdersApp.ResultFormField Sample.culture None Sample.noErrors)
     <> [Spec.label Sample.culture].
Proof.
  split; [vm_compute; reflexivity|]. split; [vm_compute; reflexivity|].
  intros Heq. vm_compute in Heq. discriminate Heq.
Qed.

Lemma label_composition_witness :
  exists c,
    (c = Sample.creatinine \/ In c (Spec.renderedMembers Sample.creatinine))
    /\ "creat-uuid" = uuid c
    /\ "Creatinine  (3.5 - 10  mg/dL)" = Spec.composedLabel KNumber c.
Proof.
  apply (label_composition Sample.creatinine None Sample.noErrors
           (ENumberInput "creat-uuid" "creat-uuid"
              "Creatinine  (3.5 - 10  mg/dL)" None false)).
  left. vm_compute. left. reflexivity.
Defined.

(** C5, counterexample.  In [part_000], a panel member whose concept is the
    observation's own concept is not pre-filled with the observation's value:
    the group members are searched, and here there are none. *)
Lemma part000_member_ignores_own_observation :
  obs_concept_uuid Sample.hivObs = Some (uuid Sample.hivTest)
  /\ In Sample.hivTest (setMembers Sample.screeningPanel)
  /\ map widget_defaultValue
        (Part000.ResultFormField Sample.screeningPanel (Some Sample.hivObs)
           Sample.noErrors)
     = [Some VUndefined]
  /\ Part000.getSavedMemberValue (Some Sample.hivObs) (uuid Sample.hivTest)
       (datatype_display (datatype Sample.hivTest))
     <> obs_value Sample.hivObs.
Proof.
  split; [reflexivity|]. split; [left; reflexivity|].
  split; [vm_compute; reflexivity|].
  intros Heq. vm_compute in Heq. discriminate Heq.
Qed.

Lemma saved_member_value_resolution_witness :
  OrdersApp.getSavedMemberValue (Some Sample.hivObs) "hiv-uuid" "Coded"
  = VObject (Some "pos-uuid") (Some "Positive")
  /\ Spec.groupMemberLookup Sample.renalObs "hiv-uuid" "Coded"
       (OrdersApp.getSavedMemberValue (Some Sample.renalObs) "hiv-uuid" "Coded")
  /\ widget_defaultValue
       (ESelect "hiv-uuid" "select-hiv-uuid" "HIV rapid test "
          (VString "neg-uuid") None None false
          [SelectItem "Choose an option" "";
           SelectItem "Positive" "pos-uuid"; SelectItem "Negative" "neg-uuid"])
     = Some (OrdersApp.getSavedMemberValue (Some Sample.renalObs)
               (uuid Sample.hivTest)
               (datatype_display (datatype Sample.hivTest)))
  /\ widget_defaultValue
       (ESelect "hiv-uuid" "select-hiv-uuid" "HIV rapid test "
          (VString "neg-uuid") (Some "text") None false
          [SelectItem "Choose an option" "";
           SelectItem "Positive" "pos-uuid"; SelectItem "Negative" "neg-uuid"])
     = Some (Part000.getSavedMemberValue (Some Sample.renalObs)
               (uuid Sample.hivTest)
               (datatype_display (datatype Sample.hivTest))).
Proof.
  split; [|split; [|split]].
  - apply (proj1 (saved_member_value_resolution Sample.hivObs "hiv-uuid" "Coded")).
    reflexivity.
  - apply (proj1 (proj2
             (saved_member_value_resolution Sample.renalObs "hiv-uuid" "Coded"))).
    discriminate.
  - destruct (saved_member_value_resolution Sample.renalObs "hiv-uuid" "Coded")
      as (_ & _ & _ & _ & _ & Hrender & _).
    apply (Hrender Sample.hivTest (Some Sample.renalObs) Sample.noErrors);
      [vm_compute; left; reflexivity|reflexivity].
  - destruct (saved_member_value_resolution Sample.renalObs "hiv-uuid" "Coded")
      as (_ & _ & _ & _ & _ & _ & Hrender).
    apply (Hrender Sample.hivTest (Some Sample.renalObs) Sample.noErrors);
      [vm_compute; tauto|reflexivity].
Defined.

(** C6, counterexample.  A panel whose only member is a date: the member
    matches none of the predicates and no widget is rendered for it, in
    either file. *)
Lemma panel_member_without_widget :
  isPanel Sample.datedPanel = true
  /\ setMembers Sample.datedPanel = [Sample.collectionDate]
  /\ OrdersApp.ResultFormField Sample.datedPanel None Sample.noErrors = []
  /\ Part000.ResultFormField Sample.datedPanel None Sample.noErrors = []
  /\ length (OrdersApp.ResultFormField Sample.datedPanel None Sample.noErrors)
     <> length (setMembers Sample.datedPanel).
Proof.
  split; [reflexivity|]. split; [reflexivity|].
  split; [vm_compute; reflexivity|]. split; [vm_compute; reflexivity|].
  vm_compute. discriminate.
Qed.

(** The members of a member are not visited: nothing is rendered for a panel
    nested in a panel, although the nested panel has renderable members. *)
Example nested_panel_not_entered :
  OrdersApp.ResultFormField Sample.nestedPanel None Sample.noErrors = []
  /\ Part000.ResultFormField Sample.nestedPanel None Sample.noErrors = []
  /\ length (OrdersApp.ResultFormField Sample.renalPanel None Sample.noErrors)
     = 3%nat.
Proof. repeat split; vm_compute; reflexivity. Qed.

Lemma panel_members_rendering_witness :
  isPanel Sample.renalPanel = true
  /\ exists perMember,
      OrdersApp.ResultFormField Sample.renalPanel (Some Sample.renalObs)
        Sample.noErrors
      = OrdersApp.ConceptField Sample.renalPanel (Some Sample.renalObs)
          Sample.noErrors
        ++ concat perMember
      /\ Forall2 (fun member ws =>
                    length ws = (if Spec.classified member then 1 else 0)%nat
                    /\ Forall (fun w => widget_name w = uuid member) ws)
                 (setMembers Sample.renalPanel) perMember.
Proof.
  split; [reflexivity|].
  exact (proj1 (panel_members_rendering Sample.renalPanel
                  (Some Sample.renalObs) Sample.noErrors eq_refl)).
Defined.

Lemma allowed_extensions_filter_witness :
  (exists props,
      modals (ImageHandlerInput.showImageCaptureModal Sample.emptyWorld).2 !! 0%nat
      = Some ("capture-photo-modal", props)
      /\ allowedExtensions props = ["jpg"; "png"])
  /\ (exists props,
        modals (ImageHandlerInput.showImageCaptureModal
                  (Collaborators0 := sampleWithoutExtensions)
                  Sample.emptyWorld).2 !! 0%nat
        = Some ("capture-photo-modal", props)
        /\ allowedExtensions props = []).
Proof.
  split.
  - destruct (allowed_extensions_filter Sample.emptyWorld)
      as (_ & props & Hopen & _ & _ & _ & Hexample & _).
    exists props. split; [exact Hopen|]. apply Hexample. reflexivity.
  - destruct (allowed_extensions_filter
                (Collaborators0 := sampleWithoutExtensions) Sample.emptyWorld)
      as (_ & props & Hopen & _ & _ & _ & _ & Habsent).
    exists props. split; [exact Hopen|]. apply Habsent.
    intros exts Heq. discriminate Heq.
Defined.

Lemma image_adapter_transitions_witness :
  formValues
    (ImageHandlerInput.handleRemoveImage (setFormValue "xray-uuid")
       Sample.populatedWorld).2 !! "xray-uuid"
  = None
  /\ snackbars
       (ImageHandlerInput.handleRemoveImage (setFormValue "xray-uuid")
          Sample.populatedWorld).2
     = [{| title := "Image removed"; kind := "success"; isLowContrast := true |}]
  /\ formValues
       (ImageHandlerInput.saveFile (setFormValue "xray-uuid") 0 (Some Sample.photo)
          Sample.emptyWorld).2 !! "xray-uuid"
     = Some Sample.photo
  /\ thumbnailGrid (ImageHandlerInput.render (Some Sample.photo) "Chest X-ray")
     = [{| src := "data:image/png;base64,AAAA"; alt := "Chest film" |}].
Proof.
  destruct (image_adapter_transitions (setFormValue "xray-uuid") "xray-uuid"
              "Chest X-ray" 0 Sample.photo Sample.populatedWorld)
    as (_ & (Hunset & Hsnack) & _).
  destruct (image_adapter_transitions (setFormValue "xray-uuid") "xray-uuid"
              "Chest X-ray" 0 Sample.photo Sample.emptyWorld)
    as (_ & _ & _ & (Hset & _ & Hthumb)).
  split; [exact Hunset|]. split; [exact Hsnack|].
  split; [exact Hset|exact Hthumb].
Defined.

(** C10, counterexample.  Three inputs on which the two files differ.
    Editing a recorded coded result: the orders app component pre-fills the
    select with the observation's value as it is, an object, [part_000] with
    the identifier of that value.  A free-text concept designated for images:
    the orders app component renders the image input alone, [part_000] a text
    input and an image input.  A panel member that is the observation's own
    concept: the orders app component pre-fills its select with the
    observation's value, [part_000] with nothing. *)
Lemma implementations_differ :
  (map widget_defaultValue
       (OrdersApp.ResultFormField Sample.hivTest (Some Sample.hivObs)
          Sample.noErrors)
   = [Some (VObject (Some "pos-uuid") (Some "Positive"))]
   /\ map widget_defaultValue
         (Part000.ResultFormField Sample.hivTest (Some Sample.hivObs)
            Sample.noErrors)
      = [Some (VString "pos-uuid")]
   /\ map widget_view
         (OrdersApp.ResultFormField Sample.hivTest (Some Sample.hivObs)
            Sample.noErrors)
      <> map widget_view
           (Part000.ResultFormField Sample.hivTest (Some Sample.hivObs)
              Sample.noErrors))
  /\ (map widget_kind
         (OrdersApp.ResultFormField Cases.describedXray None Sample.noErrors)
      = [KImage]
      /\ map widget_kind
            (Part000.ResultFormField Cases.describedXray None Sample.noErrors)
         = [KText; KImage]
      /\ map widget_view
            (OrdersApp.ResultFormField Cases.describedXray None Sample.noErrors)
         <> map widget_view
              (Part000.ResultFormField Cases.describedXray None
                 Sample.noErrors))
  /\ (map widget_defaultValue
         (OrdersApp.ResultFormField Sample.screeningPanel (Some Sample.hivObs)
            Sample.noErrors)
      = [Some (VObject (Some "pos-uuid") (Some "Positive"))]
      /\ map widget_defaultValue
            (Part000.ResultFormField Sample.screeningPanel (Some Sample.hivObs)
               Sample.noErrors)
         = [Some VUndefined]
      /\ map widget_view
            (OrdersApp.ResultFormField Sample.screeningPanel
               (Some Sample.hivObs) Sample.noErrors)
         <> map widget_view
              (Part000.ResultFormField Sample.screeningPanel
                 (Some Sample.hivObs) Sample.noErrors)).
Proof.
  repeat split; try (vm_compute; reflexivity);
    intros Heq; vm_compute in Heq; discriminate Heq.
Qed.

Lemma implementations_agree_exactly_witness :
  map widget_view
      (OrdersApp.ResultFormField Sample.renalPanel (Some Sample.renalObs)
         Sample.noErrors)
  = map widget_view
      (Part000.ResultFormField Sample.renalPanel (Some Sample.renalObs)
         Sample.noErrors)
  /\ map widget_view
        (OrdersApp.ResultFormField Sample.renalPanel (Some Cases.creatinineObs)
           Sample.noErrors)
     = map widget_view
         (Part000.ResultFormField Sample.renalPanel (Some Cases.creatinineObs)
            Sample.noErrors)
  /\ map widget_view
        (OrdersApp.ResultFormField Sample.hivTest (Some Cases.unrelatedObs)
           Sample.noErrors)
     = map widget_view
         (Part000.ResultFormField Sample.hivTest (Some Cases.unrelatedObs)
            Sample.noErrors).
Proof.
  split; [|split].
  - apply (proj2 (implementations_agree_exactly Sample.renalPanel
                    (Some Sample.renalObs) Sample.noErrors)).
    split; [repeat constructor; vm_compute; lia|].
    split; [intros Hcoded; discriminate Hcoded|].
    repeat constructor; intros _ Hown; discriminate Hown.
  - apply (proj2 (implementations_agree_exactly Sample.renalPanel
                    (Some Cases.creatinineObs) Sample.noErrors)).
    split; [repeat constructor; vm_compute; lia|].
    split; [intros Hcoded; discriminate Hcoded|].
    repeat constructor; intros Hcoded; try discriminate Hcoded;
      intros Hown; discriminate Hown.
  - apply (proj2 (implementations_agree_exactly Sample.hivTest
                    (Some Cases.unrelatedObs) Sample.noErrors)).
    split; [repeat constructor; vm_compute; lia|].
    split; [|constructor].
    intros _. apply Spec.lookup_no_members. reflexivity.
Defined.

(** * Concrete inputs of the further properties *)

Lemma errors_read_at_rendered_names_witness :
  OrdersApp.ResultFormField Sample.renalPanel (Some Sample.renalObs)
    Cases.unrelatedError
  = OrdersApp.ResultFormField Sample.renalPanel (Some Sample.renalObs)
      Sample.noErrors
  /\ Part000.ResultFormField Sample.renalPanel (Some Sample.renalObs)
       Cases.unrelatedError
     = Part000.ResultFormField Sample.renalPanel (Some Sample.renalObs)
         Sample.noErrors.
Proof.
  apply (errors_read_at_rendered_names Sample.renalPanel (Some Sample.renalObs)
           Cases.unrelatedError Sample.noErrors).
  repeat constructor; vm_compute; reflexivity.
Defined.

Lemma validation_from_error_map_witness :
  widget_validation
    (ENumberInput (JsNumber := Decimal.decimal) "creat-uuid" "creat-uuid"
       "Creatinine  (3.5 - 10  mg/dL)" (Some "Required") true)
  = Some (Cases.creatinineRequired !! "creat-uuid" ≫= message,
          bool_decide (is_Some (Cases.creatinineRequired !! "creat-uuid"))
          || Js.inherited "creat-uuid")
  /\ widget_validation
       (ETextInput (JsNumber := Decimal.decimal) "constructor" "constructor"
          "Odd " None true)
     = Some (Sample.noErrors !! "constructor" ≫= message,
             bool_decide (is_Some (Sample.noErrors !! "constructor"))
             || Js.inherited "constructor").
Proof.
  assert (Hrendered :
            In (ENumberInput "creat-uuid" "creat-uuid"
                  "Creatinine  (3.5 - 10  mg/dL)" (Some "Required") true)
               (OrdersApp.ResultFormField Sample.renalPanel
                  (Some Sample.renalObs) Cases.creatinineRequired))
    by (vm_compute; left; reflexivity).
  assert (Hodd :
            In (ETextInput "constructor" "constructor" "Odd " None true)
               (OrdersApp.ResultFormField Cases.constructorConcept None
                  Sample.noErrors))
    by (vm_compute; left; reflexivity).
  split.
  - exact (proj1 (validation_from_error_map Sample.renalPanel
                    (Some Sample.renalObs) Cases.creatinineRequired _
                    (or_introl Hrendered))).
  - exact (proj1 (validation_from_error_map Cases.constructorConcept None
                    Sample.noErrors _ (or_introl Hodd))).
Defined.

Lemma orders_app_fields_distinct_witness :
  NoDup (map uuid (renderedConcepts Sample.renalPanel))
  /\ NoDup (map widget_name
               (OrdersApp.ResultFormField Sample.renalPanel
                  (Some Sample.renalObs) Sample.noErrors)).
Proof.
  assert (Hdistinct : NoDup (map uuid (renderedConcepts Sample.renalPanel))).
  { vm_compute. repeat (constructor; [rewrite ?list_elem_of_In; cbn; intuition discriminate|]).
    constructor. }
  split; [exact Hdistinct|].
  exact (proj2 (orders_app_fields_distinct Sample.renalPanel
                  (Some Sample.renalObs) Sample.noErrors) Hdistinct).
Defined.

Lemma image_designation_overrides_witness :
  map widget_kind
      (OrdersApp.ConceptField Cases.describedXray None Sample.noErrors)
  = [KImage]
  /\ ~ NoDup (map widget_name
                 (Part000.ResultFormField Cases.describedXray None
                    Sample.noErrors)).
Proof.
  assert (Himage : isImage Cases.describedXray useConfig = true)
    by (vm_compute; reflexivity).
  assert (Htext : isText Cases.describedXray = true)
    by (vm_compute; reflexivity).
  destruct (image_designation_overrides Cases.describedXray None Sample.noErrors
              Himage Htext) as (Honly & _ & _ & Htwice).
  split; [exact Honly|exact Htwice].
Defined.

Lemma select_options_are_answers_witness :
  exists c,
    In c (renderedConcepts Sample.hivTest)
    /\ "hiv-uuid" = uuid c
    /\ [("Choose an option", ""); ("Positive", "pos-uuid");
        ("Negative", "neg-uuid")]
       = answerOptions c.
Proof.
  apply (select_options_are_answers Sample.hivTest None Sample.noErrors
           (ESelect "hiv-uuid" "select-hiv-uuid" "HIV rapid test "
              VUndefined None None false
              [SelectItem "Choose an option" "";
               SelectItem "Positive" "pos-uuid";
               SelectItem "Negative" "neg-uuid"])).
  - left. vm_compute. left. reflexivity.
  - reflexivity.
Defined.

Lemma empty_answers_render_zero_witness :
  In (TextNode "0")
     (widget_children
        (ESelect (JsNumber := Decimal.decimal) "smear-uuid" "select-smear-uuid"
           "Smear " VUndefined None None false
           [SelectItem "Choose an option" ""; TextNode "0"])).
Proof.
  apply (empty_answers_render_zero Cases.unansweredTest None Sample.noErrors
           (ESelect "smear-uuid" "select-smear-uuid" "Smear " VUndefined None
              None false [SelectItem "Choose an option" ""; TextNode "0"])).
  - vm_compute. left. reflexivity.
  - split; reflexivity.
Defined.

Lemma group_member_search_first_wins_witness :
  Part000.getSavedMemberValue (Some Cases.repeatedObs) "hiv-uuid" "Coded"
  = VString "neg-uuid".
Proof.
  destruct (group_member_search_first_wins Cases.repeatedObs "hiv-uuid" "Coded"
              VUndefined) as (_ & _ & Hfirst).
  apply (Hfirst
           [ {| member_concept_uuid := "creat-uuid";
                member_value := VNumber Sample.n3_5 |} ]
           {| member_concept_uuid := "hiv-uuid";
              member_value := VObject (Some "neg-uuid") (Some "Negative") |}
           [ {| member_concept_uuid := "hiv-uuid";
                member_value := VObject (Some "pos-uuid") (Some "Positive") |} ]).
  - reflexivity.
  - repeat constructor. discriminate.
  - reflexivity.
Defined.

Lemma suffix_reads_code_limits_unit_witness :
  OrdersApp.formatLabRange Sample.cholesterol
  = OrdersApp.formatLabRange Cases.cholesterolBlankUnit.
Proof.
  apply (suffix_reads_code_limits_unit Sample.cholesterol
           Cases.cholesterolBlankUnit); try reflexivity.
  right. split; reflexivity.
Defined.

Lemma save_then_remove_restores_witness :
  fieldValue "xray-uuid"
    (ImageHandlerInput.saveFile (setFormValue "xray-uuid") 0 (Some Sample.photo)
       Sample.emptyWorld).2
  = Some Sample.photo
  /\ formValues
       (ImageHandlerInput.handleRemoveImage (setFormValue "xray-uuid")
          (ImageHandlerInput.saveFile (setFormValue "xray-uuid") 0
             (Some Sample.photo) Sample.emptyWorld).2).2
     = formValues Sample.emptyWorld.
Proof.
  destruct (save_then_remove_restores "xray-uuid" 0 Sample.photo
              Sample.emptyWorld ltac:(vm_compute; reflexivity))
    as (Hheld & Hback & _).
  split; [exact Hheld|exact Hback].
Defined.

Lemma handlers_touch_one_field_witness :
  fieldValue "xray-uuid"
    (ImageHandlerInput.handleRemoveImage (setFormValue "scan-uuid")
       Sample.populatedWorld).2
  = fieldValue "xray-uuid" Sample.populatedWorld.
Proof.
  destruct (handlers_touch_one_field "scan-uuid" "xray-uuid" 0 None
              Sample.populatedWorld ltac:(discriminate))
    as (_ & Hkept & _).
  exact Hkept.
Defined.

Lemma part000_top_level_reads_value_only_witness :
  Part000.ResultFormField Sample.hivTest (Some Sample.hivObs) Sample.noErrors
  = Part000.ResultFormField Sample.hivTest (Some Cases.misfiledObs)
      Sample.noErrors.
Proof.
  apply (part000_top_level_reads_value_only Sample.hivTest Sample.noErrors
           Sample.hivObs Cases.misfiledObs); reflexivity.
Defined.
